(** * ISOToolsSectionClient: the news-feed component, embedded and verified

    Source: [src/components/ISOToolsSectionClient.jsx].

    The component is a React function component.  It owns three pieces of
    state ([data], [loading], [error]), starts one asynchronous [fetchData]
    when it is mounted, and its body is a pure function from the state to an
    element tree.  The embedding follows that split:

    - [Js]        the JavaScript values the code manipulates, property reads,
                  truthiness, [===], [Array.prototype.findIndex] and
                  [Array.prototype.filter];
    - [Dom]       the element tree a render returns;
    - [Component] [fetchData] in a small state/exception/suspension monad,
                  and the render body with [uniqueArticles];
    - [Spec]      deduplication as the specification words it, and the
                  vocabulary of the statements;
    - [Feeds]     concrete hosts and payloads;
    - then the facts about values, deduplication, loading and rendering,
      and the component's contract. *)

From Stdlib Require Import ZArith NArith PArith List String Ascii Bool Lia.
From Stdlib Require Import Floats.SpecFloat DecimalString DecimalPos DecimalZ.
Import ListNotations.
Local Open Scope string_scope.

(* ================================================================== *)
(** ** JavaScript values *)
(* ================================================================== *)

Module Js.

(** What can be thrown or be the reason of a rejected promise. *)
Inductive exn :=
| ErrorObj (message : string)       (* [new Error(message)] *)
| TypeErrorRead (prop : string)     (* a property read on [null]/[undefined] *)
| TypeErrorConvert                  (* an object that has no primitive value *)
| HostFailure (reason : string).    (* raised by the host: transport, body not JSON *)

(** Completion of synchronous code: a value or a thrown exception. *)
Inductive result (A : Type) :=
| Ok (a : A)
| Throw (e : exn).
Arguments Ok {A} a.
Arguments Throw {A} e.

Definition rbind {A B} (r : result A) (k : A -> result B) : result B :=
  match r with
  | Ok a => k a
  | Throw e => Throw e
  end.

Notation "x <- r ;; k" := (rbind r (fun x => k))
  (at level 61, r at next level, right associativity).

(** Objects and arrays are heap allocated; [===] on them compares the
    allocation, not the contents.  Each one carries the identity it was
    allocated with. *)
Definition ident := nat.

(** A number is an IEEE-754 binary64, as [spec_float] with [prec = 53] and
    [emax = 1024].  A string is held as its bytes: the component only tests
    strings for emptiness and for equality, and shows them. *)
#[warnings="-register-all"]
Inductive value :=
| VUndefined
| VNull
| VBool (b : bool)
| VNum (x : spec_float)
| VStr (s : string)
| VArr (a : ident) (items : list value)
| VObj (a : ident) (fields : list (string * value)).

Definition prec : Z := 53.
Definition emax : Z := 1024.

Definition is_nan (x : spec_float) : bool :=
  match x with
  | S754_nan => true
  | _ => false
  end.

(** The doubles a JSON number can denote: every valid binary64 but NaN. *)
Definition is_double (x : spec_float) : bool :=
  valid_binary prec emax x && negb (is_nan x).

(** The double of a length.  Exact below 2^53, which bounds every length a
    string or an array can have. *)
Definition num_of_nat (n : nat) : spec_float :=
  match N.of_nat n with
  | N0 => S754_zero false
  | Npos p =>
      let d := Zpos (digits2_pos p) in
      S754_finite false (Pos.shiftl p (Z.to_N (prec - d))) (d - prec)
  end.

Definition zero : spec_float := S754_zero false.

(** The values [response.json()] can resolve to: no [undefined], no NaN. *)
Fixpoint json_value (v : value) : bool :=
  match v with
  | VUndefined => false
  | VNull | VBool _ | VStr _ => true
  | VNum x => is_double x
  | VArr _ items => forallb json_value items
  | VObj _ fields => forallb (fun kv => json_value (snd kv)) fields
  end.

(** Own-property lookup in an object literal's field list. *)
Fixpoint assoc (p : string) (fields : list (string * value)) : option value :=
  match fields with
  | [] => None
  | (k, v) :: rest => if String.eqb k p then Some v else assoc p rest
  end.

(** [v.p].  Reading a property of [null] or [undefined] throws a TypeError;
    a primitive or an object without the property gives [undefined].  Of the
    inherited properties only [length] is modelled: the component reads
    [daily_news], [id], [title], [text], [image_url] and [length], and no
    prototype defines the first five. *)
Definition get_prop (v : value) (p : string) : result value :=
  match v with
  | VUndefined | VNull => Throw (TypeErrorRead p)
  | VBool _ | VNum _ => Ok VUndefined
  | VStr s =>
      if String.eqb p "length" then Ok (VNum (num_of_nat (String.length s)))
      else Ok VUndefined
  | VArr _ items =>
      if String.eqb p "length" then Ok (VNum (num_of_nat (List.length items)))
      else Ok VUndefined
  | VObj _ fields =>
      match assoc p fields with
      | Some x => Ok x
      | None => Ok VUndefined
      end
  end.

(** ToBoolean. *)
Definition truthy (v : value) : bool :=
  match v with
  | VUndefined | VNull => false
  | VBool b => b
  | VNum (S754_zero _) | VNum S754_nan => false
  | VNum _ => true
  | VStr s => negb (String.eqb s "")
  | VArr _ _ | VObj _ _ => true
  end.

(** [x || y]. *)
Definition js_or (x y : value) : value := if truthy x then x else y.

(** [x === y]: no conversion; numbers by IEEE equality, strings by content,
    objects and arrays by identity. *)
Definition strict_equals (x y : value) : bool :=
  match x, y with
  | VUndefined, VUndefined => true
  | VNull, VNull => true
  | VBool a, VBool b => Bool.eqb a b
  | VNum a, VNum b => SFeqb a b
  | VStr a, VStr b => String.eqb a b
  | VArr a _, VArr b _ => Nat.eqb a b
  | VObj a _, VObj b _ => Nat.eqb a b
  | _, _ => false
  end.

(** A string built by conversion.  [Digits x] stands for the numeral that
    Number::toString gives the double [x]; its characters are not computed. *)
Inductive piece :=
| Chars (s : string)
| Digits (x : spec_float).

Definition jstring := list piece.

(** [Array.prototype.join] with the default separator: the elements are
    converted in turn, [null] and [undefined] as the empty string, with
    commas in between.  [first] says that no element precedes [l]. *)
Definition join_with (conv : value -> result jstring)
  : list value -> bool -> result jstring :=
  fix join (l : list value) (first : bool) : result jstring :=
    match l with
    | [] => Ok []
    | x :: rest =>
        s <- match x with
             | VUndefined | VNull => Ok []
             | _ => conv x
             end ;;
        t <- join rest false ;;
        Ok ((if first then [] else [Chars ","]) ++ s ++ t)%list
    end.

(** ['' + v].  A primitive is converted by ToString, an array is joined.
    An object takes the inherited [toString], which gives "[object Object]",
    unless it has a field of its own named [toString]: that field holds no
    function, the inherited [valueOf] returns the object itself, and the
    conversion throws. *)
Fixpoint to_jstring (v : value) : result jstring :=
  match v with
  | VUndefined => Ok [Chars "undefined"]
  | VNull => Ok [Chars "null"]
  | VBool b => Ok [Chars (if b then "true" else "false")]
  | VNum x => Ok [Digits x]
  | VStr s => Ok [Chars s]
  | VArr _ items => join_with to_jstring items true
  | VObj _ fields =>
      match assoc "toString" fields with
      | Some _ => Throw TypeErrorConvert
      | None => Ok [Chars "[object Object]"]
      end
  end.

(** The conversion to a string does not throw. *)
Definition converts (v : value) : bool :=
  match to_jstring v with
  | Ok _ => true
  | Throw _ => false
  end.

Definition isArray (v : value) : bool :=
  match v with
  | VArr _ _ => true
  | _ => false
  end.

(** The type tag [===] looks at first. *)
Inductive type_tag := TUndefined | TNull | TBoolean | TNumber | TString | TArray | TObject.

Definition type_of (v : value) : type_tag :=
  match v with
  | VUndefined => TUndefined
  | VNull => TNull
  | VBool _ => TBoolean
  | VNum _ => TNumber
  | VStr _ => TString
  | VArr _ _ => TArray
  | VObj _ _ => TObject
  end.

(** [arr.findIndex(pred)]: the first index whose element satisfies [pred],
    [-1] when there is none.  [k] is the index of the head of [l]. *)
Fixpoint findIndex_from (pred : value -> result bool) (l : list value) (k : Z)
  : result Z :=
  match l with
  | [] => Ok (-1)%Z
  | a :: rest =>
      b <- pred a ;;
      if b then Ok k else findIndex_from pred rest (k + 1)%Z
  end.

Definition findIndex (pred : value -> result bool) (arr : list value) : result Z :=
  findIndex_from pred arr 0%Z.

(** [arr.filter(cb)], where [cb] receives the element, its index and the
    whole array.  [idx] is the index of the head of [l]. *)
Fixpoint filter_from (cb : value -> Z -> list value -> result bool)
  (arr l : list value) (idx : Z) : result (list value) :=
  match l with
  | [] => Ok []
  | item :: rest =>
      keep <- cb item idx arr ;;
      kept <- filter_from cb arr rest (idx + 1)%Z ;;
      Ok (if keep then item :: kept else kept)
  end.

Definition filter (cb : value -> Z -> list value -> result bool) (arr : list value)
  : result (list value) :=
  filter_from cb arr arr 0%Z.

(** [arr.map(f)]. *)
Fixpoint map_result {A B} (f : A -> result B) (l : list A) : result (list B) :=
  match l with
  | [] => Ok []
  | x :: rest =>
      y <- f x ;;
      ys <- map_result f rest ;;
      Ok (y :: ys)
  end.

End Js.

(* ================================================================== *)
(** ** Element trees *)
(* ================================================================== *)

Module Dom.
Import Js.

(** The value of a JSX attribute. *)
Inductive attr :=
| AStr (s : string)                       (* [name="literal"] *)
| AVal (v : value)                        (* [name={expression}] *)
| AStyle (decls : list (string * string)). (* [style={{ ... }}] *)

(** What a JSX expression evaluates to.  [Expr v] is a child written
    [{expression}] whose value [v] is not an element: a string to show, or
    the falsy left operand of a [&&] guard. *)
#[warnings="-register-all"]
Inductive node :=
| Text (s : string)
| Expr (v : value)
| Elem (tag : string) (key : option jstring) (attrs : list (string * attr))
       (children : list node).

(** The key an element is created with from [key={v}]: none for
    [undefined], and ['' + v] otherwise, which can throw. *)
Definition to_key (v : value) : result (option jstring) :=
  match v with
  | VUndefined => Ok None
  | _ => s <- to_jstring v ;; Ok (Some s)
  end.

(** What React accepts as a child written [{v}]: text for a string or a
    number, nothing for a boolean, [null] or [undefined], the children in
    turn for an array; a plain object is refused with an error. *)
Fixpoint valid_child (v : value) : bool :=
  match v with
  | VObj _ _ => false
  | VArr _ items => forallb valid_child items
  | _ => true
  end.

(** An attribute given as [name={v}] is set to ['' + v]. *)
Definition valid_attr (a : attr) : bool :=
  match a with
  | AVal v => converts v
  | _ => true
  end.

(** React can put the tree on the page: every child is accepted and every
    attribute converts. *)
Fixpoint displayable (n : node) : bool :=
  match n with
  | Text _ => true
  | Expr v => valid_child v
  | Elem _ _ attrs children =>
      forallb (fun kv => valid_attr (snd kv)) attrs
      && forallb displayable children
  end.

Definition tag_is (t : string) (n : node) : bool :=
  match n with
  | Elem tag _ _ _ => String.eqb tag t
  | _ => false
  end.

(** The node itself and everything below it, in document order. *)
Fixpoint descendants (n : node) : list node :=
  n :: match n with
       | Elem _ _ _ children => flat_map descendants children
       | _ => []
       end.

(** The elements with tag [t] in the tree, in document order. *)
Definition elements (t : string) (n : node) : list node :=
  List.filter (tag_is t) (descendants n).

Definition children_of (n : node) : list node :=
  match n with
  | Elem _ _ _ children => children
  | _ => []
  end.

End Dom.

(* ================================================================== *)
(** ** The component *)
(* ================================================================== *)

Module Component.
Import Js Dom.

(** The three [useState] cells. *)
Record state := mkState {
  data : value;
  loading : bool;
  error : value
}.

(** [useState(null)], [useState(true)], [useState(null)]. *)
Definition initial_state : state :=
  {| data := VNull; loading := true; error := VNull |}.

(** How an awaited promise ends: it is fulfilled, it is rejected, or it
    never settles (no timeout is set on the request). *)
Inductive settled (A : Type) :=
| Fulfilled (a : A)
| Rejected (e : exn)
| Pending.
Arguments Fulfilled {A} a.
Arguments Rejected {A} e.
Arguments Pending {A}.

(** What the code uses of a [Response]: [ok] and [json()]. *)
Record response := mkResponse {
  ok : bool;
  json : settled value
}.

(** The host: the clock behind [Date.now()] and the network behind
    [fetch(url)]. *)
Record world := mkWorld {
  date_now : Z;
  fetch : string -> settled response
}.

(** What [fetchData] acts on: the component's state and the requests issued
    so far. *)
Record store := mkStore {
  view : state;
  requests : list string
}.

(** An asynchronous computation: it ends like a promise and updates the
    store on the way. *)
Definition M (A : Type) : Type := store -> settled A * store.

Definition ret {A} (a : A) : M A := fun s => (Fulfilled a, s).

Definition throw {A} (e : exn) : M A := fun s => (Rejected e, s).

Definition bind {A B} (m : M A) (k : A -> M B) : M B :=
  fun s =>
    match m s with
    | (Fulfilled a, s') => k a s'
    | (Rejected e, s') => (Rejected e, s')
    | (Pending, s') => (Pending, s')
    end.

Notation "x <~ m ;; k" := (bind m (fun x => k))
  (at level 61, m at next level, right associativity).
Notation "m ;;; k" := (bind m (fun _ => k))
  (at level 61, right associativity).

(** Synchronous code inside the asynchronous function. *)
Definition lift {A} (r : result A) : M A :=
  match r with
  | Ok a => ret a
  | Throw e => throw e
  end.

(** [await p]. *)
Definition await {A} (p : settled A) : M A := fun s => (p, s).

(** [try { body } catch (err) { handler } finally { fin }].  A body that
    never resumes runs neither block. *)
Definition try_catch_finally {A} (body : M A) (handler : exn -> M A) (fin : M unit)
  : M A :=
  fun s =>
    let after_catch :=
      match body s with
      | (Rejected e, s') => handler e s'
      | done => done
      end in
    match after_catch with
    | (Pending, s') => (Pending, s')
    | (r, s') =>
        match fin s' with
        | (Fulfilled _, s'') => (r, s'')
        | (Rejected e, s'') => (Rejected e, s'')
        | (Pending, s'') => (Pending, s'')
        end
    end.

Definition update (f : state -> state) : M unit :=
  fun s => (Fulfilled tt, {| view := f (view s); requests := requests s |}).

Definition setData (v : value) : M unit :=
  update (fun st => {| data := v; loading := loading st; error := error st |}).

Definition setLoading (b : bool) : M unit :=
  update (fun st => {| data := data st; loading := b; error := error st |}).

Definition setError (v : value) : M unit :=
  update (fun st => {| data := data st; loading := loading st; error := v |}).

(** [await fetch(url)]: the request is recorded, then the host answers. *)
Definition do_fetch (w : world) (url : string) : M response :=
  fun s =>
    (fetch w url, {| view := view s; requests := requests s ++ [url] |}).

(** The template literal of line 12. *)
Definition feed_url (timestamp : Z) : string :=
  "https://raw.githubusercontent.com/thenext90/noticias_isotools_cms/main/isotools-daily-news.json?t="
  ++ NilZero.string_of_int (Z.to_int timestamp).

(** The identity of the array literal [[]] of line 15.  Nothing compares it. *)
Definition fresh_array : ident := 0.

Definition load_failed_message : string :=
  "No se pudieron cargar las noticias de ISOTools.".

(** Lines 9-21. *)
Definition fetchData (w : world) : M unit :=
  try_catch_finally
    (let timestamp := date_now w in
     response <~ do_fetch w (feed_url timestamp) ;;
     (if negb (ok response)
      then throw (ErrorObj "No se pudo cargar el archivo remoto")
      else ret tt) ;;;
     json <~ await (json response) ;;
     daily_news <~ lift (get_prop json "daily_news") ;;
     setData (js_or daily_news (VArr fresh_array [])))
    (fun err => setError (VStr load_failed_message))
    (setLoading false).

(** Lines 8 and 22-23: the effect runs [fetchData] once, on the state the
    component was created with. *)
Definition mount (w : world) : settled unit * store :=
  fetchData w {| view := initial_state; requests := [] |}.

Definition loaded (w : world) : state := view (snd (mount w)).

(** *** The render body, lines 25-76 *)

Definition loading_view : node :=
  Elem "section" None [("className", AStr "py-12 text-center")]
    [Elem "p" None [] [Text "Cargando noticias ISOTools..."]].

Definition error_view (message : value) : node :=
  Elem "section" None [("className", AStr "py-12 text-center text-red-600")]
    [Elem "p" None [] [Expr message]].

Definition no_news_message : string := "No hay noticias disponibles.".

Definition empty_view : node :=
  Elem "section" None [("className", AStr "py-12 text-center")]
    [Elem "p" None [] [Text no_news_message]].

(** Lines 36-38. *)
Definition uniqueArticles (data : value) : result (list value) :=
  match data with
  | VArr _ arr =>
      filter
        (fun item idx arr =>
           i <- findIndex
                  (fun a =>
                     x <- get_prop a "id" ;;
                     y <- get_prop item "id" ;;
                     Ok (strict_equals x y))
                  arr ;;
           Ok (Z.eqb i idx))
        arr
  | _ => Ok []
  end.

(** Lines 52-59. *)
Definition image_block (src alt : value) : node :=
  Elem "div" None
    [("className", AStr "w-full h-48 bg-gray-100 flex items-center justify-center overflow-hidden")]
    [Elem "img" None
       [("src", AVal src);
        ("alt", AVal alt);
        ("className", AStr "object-cover w-full h-full max-h-48");
        ("style", AStyle [("objectFit", "cover"); ("width", "100%");
                          ("height", "100%"); ("maxHeight", "12rem")])]
       []].

(** Lines 62-64. *)
Definition title_block (title : value) : node :=
  Elem "h3" None
    [("className", AStr "text-lg font-bold text-gray-800 leading-tight mb-3 group-hover:text-accent-800 transition-colors")]
    [Expr title].

(** Lines 66-68. *)
Definition text_block (text : value) : node :=
  Elem "p" None
    [("className", AStr "text-gray-700 text-sm leading-relaxed whitespace-pre-line")]
    [Expr text].

(** [guard && element]: the element when the guard is truthy, the guard's
    own value otherwise. *)
Definition js_and_node (guard : value) (element : result node) : result node :=
  if truthy guard then element else Ok (Expr guard).

(** Lines 50-71, the callback of [uniqueArticles.map].  Every read is on
    [article], so the first one decides whether a read throws.  The
    [<article>] element is created last, from the values read, and that is
    when its key is converted. *)
Definition card (article : value) : result node :=
  id <- get_prop article "id" ;;
  image_url <- get_prop article "image_url" ;;
  image <- js_and_node image_url
             (src <- get_prop article "image_url" ;;
              alt <- get_prop article "title" ;;
              Ok (image_block src alt)) ;;
  title <- get_prop article "title" ;;
  text <- get_prop article "text" ;;
  body <- js_and_node text
            (shown <- get_prop article "text" ;;
             Ok (text_block shown)) ;;
  key <- to_key id ;;
  Ok (Elem "article" key
        [("className", AStr "bg-white rounded-xl shadow-lg hover:shadow-xl transition-all duration-300 overflow-hidden group")]
        [image;
         Elem "div" None [("className", AStr "p-6")]
           [title_block title; body]]).

Definition heading : string :=
  "Consejos y tendencias para ayudarte a mejorar tus sistemas de gestión".

(** Lines 40-76. *)
Definition ready_view (cards : list node) : node :=
  Elem "section" None [("className", AStr "pb-6 pt-12 bg-gray-50")]
    [Elem "div" None [("className", AStr "max-w-7xl mx-auto px-4 sm:px-6 lg:px-8")]
       [Elem "div" None [("className", AStr "text-center mb-12")]
          [Elem "h2" None
             [("className", AStr "text-xl font-bold text-accent-800 bg-accent-50 inline-block px-6 py-3 rounded-full border-2 border-accent-200")]
             [Text heading]];
        Elem "div" None
          [("className", AStr "grid grid-cols-1 md:grid-cols-2 lg:grid-cols-3 gap-8 mb-12")]
          cards]].

(** [!data || data.length === 0], line 31. *)
Definition no_news (data : value) : result bool :=
  if negb (truthy data) then Ok true
  else
    len <- get_prop data "length" ;;
    Ok (strict_equals len (VNum zero)).

(** The component body after the hooks. *)
Definition render (st : state) : result node :=
  if loading st then Ok loading_view
  else if truthy (error st) then Ok (error_view (error st))
  else
    empty <- no_news (data st) ;;
    if empty then Ok empty_view
    else
      unique <- uniqueArticles (data st) ;;
      cards <- map_result card unique ;;
      Ok (ready_view cards).

(** The cards of a rendered tree: its [<article>] elements. *)
Definition cards_of (tree : node) : list node := elements "article" tree.

End Component.

(* ================================================================== *)
(** ** Deduplication as the specification words it *)
(* ================================================================== *)

Module Spec.
Import Js Dom Component.

(** An element [a.id] can be read from: anything but [null] and
    [undefined]. *)
Definition readable (v : value) : bool :=
  match v with
  | VUndefined | VNull => false
  | _ => true
  end.

(** [a.p] where the read cannot throw. *)
Definition prop (p : string) (a : value) : value :=
  match get_prop a p with
  | Ok x => x
  | Throw _ => VUndefined
  end.

Definition id_of : value -> value := prop "id".

Definition same_id (a b : value) : bool := strict_equals (id_of a) (id_of b).

(** "For article at position i, keep iff no earlier position j < i shares
    the same id."  [earlier] holds the elements before the head of [l]. *)
Fixpoint first_occurrences_from (earlier l : list value) : list value :=
  match l with
  | [] => []
  | x :: rest =>
      if existsb (fun y => same_id y x) earlier
      then first_occurrences_from (earlier ++ [x]) rest
      else x :: first_occurrences_from (earlier ++ [x]) rest
  end.

Definition first_occurrences (l : list value) : list value :=
  first_occurrences_from [] l.

(** The distinct values of a sequence of ids, by one pass over it with the
    set of the ids already seen. *)
Fixpoint distinct_from (seen ids : list value) : list value :=
  match ids with
  | [] => []
  | i :: rest =>
      if existsb (fun s => strict_equals s i) seen
      then distinct_from seen rest
      else i :: distinct_from (i :: seen) rest
  end.

Definition count_distinct (ids : list value) : nat :=
  List.length (distinct_from [] ids).

(** [sub] is [l] with some elements removed, the others in their order. *)
Inductive Subsequence : list value -> list value -> Prop :=
| sub_nil : Subsequence [] []
| sub_keep x sub l : Subsequence sub l -> Subsequence (x :: sub) (x :: l)
| sub_drop x sub l : Subsequence sub l -> Subsequence sub (x :: l).

(** No two elements of the list share an id. *)
Fixpoint ids_distinct_from (earlier l : list value) : bool :=
  match l with
  | [] => true
  | x :: rest =>
      negb (existsb (fun y => same_id y x) earlier)
      && ids_distinct_from (earlier ++ [x]) rest
  end.

Definition ids_distinct (l : list value) : bool := ids_distinct_from [] l.

Definition no_nan (v : value) : bool :=
  match v with
  | VNum x => negb (is_nan x)
  | _ => true
  end.

(** The predicate [findIndex] is given for [item] on line 37, by name. *)
Definition shares_id_with (item : value) : value -> result bool :=
  fun a =>
    x <- get_prop a "id" ;;
    y <- get_prop item "id" ;;
    Ok (strict_equals x y).

(** The callback [filter] is given on line 37, by name. *)
Definition is_first (item : value) (idx : Z) (arr : list value) : result bool :=
  i <- findIndex (shares_id_with item) arr ;;
  Ok (Z.eqb i idx).

(** The object has an own field named [p]. *)
Definition has_field (p : string) (v : value) : bool :=
  match v with
  | VObj _ fields =>
      match assoc p fields with
      | Some _ => true
      | None => false
      end
  | _ => false
  end.

Definition lacks_id (a : value) : bool := negb (has_field "id" a).

(** [a.id] reads as [undefined]. *)
Definition id_undefined (a : value) : bool := strict_equals (id_of a) VUndefined.

(** The card of an element whose properties can be read. *)
Definition image_slot (a : value) : node :=
  if truthy (prop "image_url" a)
  then image_block (prop "image_url" a) (prop "title" a)
  else Expr (prop "image_url" a).

Definition text_slot (a : value) : node :=
  if truthy (prop "text" a)
  then text_block (prop "text" a)
  else Expr (prop "text" a).

(** The key of the card of [a], where the conversion does not throw. *)
Definition key_tree (a : value) : option jstring :=
  match to_key (id_of a) with
  | Ok key => key
  | Throw _ => None
  end.

(** The id of [a] can be made a key. *)
Definition keyable (a : value) : bool :=
  match to_key (id_of a) with
  | Ok _ => true
  | Throw _ => false
  end.

(** React can show what the card of [a] holds: the title as a child, the
    text as a child when it is truthy, and the image address as an
    attribute when it is truthy. *)
Definition fields_showable (a : value) : bool :=
  valid_child (prop "title" a)
  && (negb (truthy (prop "text" a)) || valid_child (prop "text" a))
  && (negb (truthy (prop "image_url" a)) || converts (prop "image_url" a)).

Definition showable (a : value) : bool := keyable a && fields_showable a.

Definition card_tree (a : value) : node :=
  Elem "article" (key_tree a)
    [("className", AStr "bg-white rounded-xl shadow-lg hover:shadow-xl transition-all duration-300 overflow-hidden group")]
    [image_slot a;
     Elem "div" None [("className", AStr "p-6")]
       [title_block (prop "title" a); text_slot a]].

(** What an array of readable elements is rendered as. *)
Definition array_view (l : list value) : node :=
  match l with
  | [] => empty_view
  | _ => ready_view (map card_tree (first_occurrences l))
  end.

(** The request [fetchData] sends in world [w]. *)
Definition request (w : world) : string := feed_url (date_now w).

(** The three ways a load fails: the transport rejects, the status is not a
    success, the body of a successful response is not JSON. *)
Inductive Fails (w : world) : Prop :=
| fails_transport e :
    fetch w (request w) = Rejected e -> Fails w
| fails_status r :
    fetch w (request w) = Fulfilled r -> ok r = false -> Fails w
| fails_parse r e :
    fetch w (request w) = Fulfilled r -> ok r = true -> json r = Rejected e ->
    Fails w.

(** The state a failed load leaves. *)
Definition failed_state : state :=
  {| data := VNull; loading := false; error := VStr load_failed_message |}.

(** The state a load that read [daily_news] leaves. *)
Definition ready_state (daily_news : value) : state :=
  {| data := js_or daily_news (VArr fresh_array []);
     loading := false;
     error := VNull |}.

(** The store after a load that ran to its end in state [st]. *)
Definition completed (w : world) (st : state) : settled unit * store :=
  (Fulfilled tt, {| view := st; requests := [request w] |}).

(** The host never answers: the request, or the reading of the body of a
    successful response, stays pending. *)
Definition Stalls (w : world) : Prop :=
  fetch w (request w) = Pending
  \/ exists r, fetch w (request w) = Fulfilled r /\ ok r = true /\ json r = Pending.

(** The request is answered with a success status and the JSON [body]. *)
Definition Delivers (w : world) (body : value) : Prop :=
  exists r, fetch w (request w) = Fulfilled r /\ ok r = true
            /\ json r = Fulfilled body /\ json_value body = true.

(** What is shown inside the [<h3>] elements of a tree, in order. *)
Definition titles (tree : node) : list node :=
  flat_map children_of (elements "h3" tree).

Definition LF : ascii := ascii_of_nat 10.

(** The lines of a text, split at line feeds. *)
Fixpoint lines_from (current : string) (s : string) : list string :=
  match s with
  | EmptyString => [current]
  | String c rest =>
      if Ascii.eqb c LF then current :: lines_from "" rest
      else lines_from (current ++ String c "") rest
  end.

Definition lines (s : string) : list string := lines_from "" s.

(** The fixed part of the request URL, up to and including [?t=]. *)
Definition feed_prefix : string :=
  "https://raw.githubusercontent.com/thenext90/noticias_isotools_cms/main/isotools-daily-news.json?t=".

End Spec.

(* ================================================================== *)
(** ** Concrete feeds *)
(* ================================================================== *)

Module Feeds.
Import Js Dom Component Spec.

(** A host that answers every request with status 200 and [body]. *)
Definition serving (now : Z) (body : value) : world :=
  {| date_now := now;
     fetch := fun _ => Fulfilled {| ok := true; json := Fulfilled body |} |}.

(** A host that answers with a failure status; [body] is what [json()]
    would give. *)
Definition refusing (now : Z) (body : settled value) : world :=
  {| date_now := now;
     fetch := fun _ => Fulfilled {| ok := false; json := body |} |}.

Definition one : value := VNum (num_of_nat 1).
Definition two : value := VNum (num_of_nat 2).

(** [{"daily_news":[{"id":1,"title":"A"},{"id":1,"title":"A-dup"},
     {"id":2,"title":"B","text":"Body\nLine2","image_url":"http://x/y.png"}]}] *)
Definition article_A : value := VObj 3 [("id", one); ("title", VStr "A")].
Definition article_A_dup : value := VObj 4 [("id", one); ("title", VStr "A-dup")].
Definition body_text : string := "Body" ++ String LF "Line2".
Definition article_B : value :=
  VObj 5 [("id", two); ("title", VStr "B"); ("text", VStr body_text);
          ("image_url", VStr "http://x/y.png")].
Definition scenario_items : list value := [article_A; article_A_dup; article_B].
Definition scenario : value := VObj 1 [("daily_news", VArr 2 scenario_items)].

(** [{"daily_news":[null]}] *)
Definition null_item_feed : value := VObj 1 [("daily_news", VArr 2 [VNull])].

(** [{"daily_news":[{"id":1,"title":"A","image_url":"","text":null}]}] *)
Definition blank_article : value :=
  VObj 3 [("id", one); ("title", VStr "A"); ("image_url", VStr ""); ("text", VNull)].

(** [{"daily_news":[{"id":{"toString":1},"title":"A"}]}] *)
Definition unkeyable_article : value :=
  VObj 3 [("id", VObj 4 [("toString", one)]); ("title", VStr "A")].
Definition unkeyable_feed : value :=
  VObj 1 [("daily_news", VArr 2 [unkeyable_article])].

(** [{"daily_news":[{"id":1,"title":{"en":"A"}}]}] *)
Definition object_title_article : value :=
  VObj 3 [("id", one); ("title", VObj 4 [("en", VStr "A")])].
Definition object_title_feed : value :=
  VObj 1 [("daily_news", VArr 2 [object_title_article])].

(** [{"daily_news":[{"id":1},{"id":"1"},{"title":"x"},{"title":"y"}]}] *)
Definition mixed_items : list value :=
  [VObj 3 [("id", one)]; VObj 4 [("id", VStr "1")];
   VObj 5 [("title", VStr "x")]; VObj 6 [("title", VStr "y")]].

End Feeds.

(* ================================================================== *)
(** ** Facts about values *)
(* ================================================================== *)

Module JsFacts.
Import Js Dom Spec.

Lemma SFeqb_true_iff (x y : spec_float) :
  SFeqb x y = true <->
  (exists s1 s2, x = S754_zero s1 /\ y = S754_zero s2) \/ (x = y /\ is_nan x = false).
Proof.
  unfold SFeqb.
  destruct x as [s1 | s1 | | s1 m1 e1], y as [s2 | s2 | | s2 m2 e2];
    try destruct s1; try destruct s2; simpl;
    try solve [ split; [ discriminate | intros [(? & ? & ? & ?) | [? ?]]; congruence ] ];
    try solve [ split; [ intros _; right; split; reflexivity | reflexivity ] ];
    try solve [ split; [ intros _; left; eauto | reflexivity ] ].
  all: change (Pos.compare_cont Eq m1 m2) with (Pos.compare m1 m2).
  all: destruct (Z.compare_spec e1 e2); try destruct (Pos.compare_spec m1 m2); simpl.
  all: split; try discriminate; try reflexivity.
  all: try (intros _; right; split; [subst; reflexivity | reflexivity]).
  all: intros [(? & ? & ? & ?) | [E _]]; try discriminate; injection E; intros; subst; lia.
Qed.

Lemma SFeqb_refl (x : spec_float) : is_nan x = false -> SFeqb x x = true.
Proof. intros H. apply SFeqb_true_iff. right. split; [reflexivity | exact H]. Qed.

Lemma SFeqb_sym_true (x y : spec_float) : SFeqb x y = true -> SFeqb y x = true.
Proof.
  rewrite !SFeqb_true_iff.
  intros [(s1 & s2 & -> & ->) | [-> H]]; [ left; eauto | right; split; [reflexivity | exact H] ].
Qed.

Lemma SFeqb_trans (x y z : spec_float) :
  SFeqb x y = true -> SFeqb y z = true -> SFeqb x z = true.
Proof.
  rewrite !SFeqb_true_iff.
  intros [(s1 & s2 & -> & ->) | [-> H]] [(s3 & s4 & E & ->) | [<- H']];
    try discriminate E; try (left; eauto; fail); try (right; split; [reflexivity | assumption]).
Qed.

(** [===] is reflexive on everything but NaN, and always symmetric and
    transitive. *)
Lemma strict_equals_refl (v : value) : no_nan v = true -> strict_equals v v = true.
Proof.
  destruct v; simpl; intros H; auto.
  - apply Bool.eqb_reflx.
  - apply SFeqb_refl. now apply negb_true_iff.
  - apply String.eqb_refl.
  - apply Nat.eqb_refl.
  - apply Nat.eqb_refl.
Qed.

Lemma strict_equals_sym (v w : value) :
  strict_equals v w = true -> strict_equals w v = true.
Proof.
  destruct v, w; simpl; try discriminate; auto.
  - intros H. apply Bool.eqb_prop in H. subst. apply Bool.eqb_reflx.
  - apply SFeqb_sym_true.
  - rewrite String.eqb_sym. auto.
  - rewrite Nat.eqb_sym. auto.
  - rewrite Nat.eqb_sym. auto.
Qed.

Lemma strict_equals_trans (u v w : value) :
  strict_equals u v = true -> strict_equals v w = true -> strict_equals u w = true.
Proof.
  destruct u, v; simpl; try discriminate; destruct w; simpl; try discriminate; auto.
  - intros H1 H2. apply Bool.eqb_prop in H1, H2. subst. apply Bool.eqb_reflx.
  - apply SFeqb_trans.
  - rewrite !String.eqb_eq. congruence.
  - rewrite !Nat.eqb_eq. congruence.
  - rewrite !Nat.eqb_eq. congruence.
Qed.

(** Values of different types are never [===]. *)
Lemma strict_equals_types (v w : value) :
  strict_equals v w = true -> type_of v = type_of w.
Proof. destruct v, w; simpl; try discriminate; reflexivity. Qed.

Lemma strict_equals_undefined (v : value) :
  strict_equals v VUndefined = true <-> v = VUndefined.
Proof. destruct v; simpl; split; try discriminate; reflexivity. Qed.

Lemma num_of_nat_not_nan (n : nat) : is_nan (num_of_nat n) = false.
Proof. unfold num_of_nat. destruct (N.of_nat n); reflexivity. Qed.

(** [n === 0] on a length. *)
Lemma length_is_zero (n : nat) : SFeqb (num_of_nat n) zero = Nat.eqb n 0.
Proof.
  unfold num_of_nat. destruct n as [| n]; [reflexivity |].
  destruct (N.of_nat (S n)) eqn:E; [lia | reflexivity].
Qed.

Lemma get_prop_readable (v : value) (p : string) :
  readable v = true -> get_prop v p = Ok (prop p v).
Proof.
  unfold prop. destruct v; simpl; try discriminate; intros _; auto.
  - destruct (String.eqb p "length"); reflexivity.
  - destruct (String.eqb p "length"); reflexivity.
  - destruct (assoc p fields); reflexivity.
Qed.

Lemma get_prop_unreadable (v : value) (p : string) :
  readable v = false -> get_prop v p = Throw (TypeErrorRead p).
Proof. destruct v; simpl; try discriminate; reflexivity. Qed.

Lemma get_prop_ok (v : value) (p : string) (x : value) :
  get_prop v p = Ok x -> readable v = true /\ prop p v = x.
Proof.
  intros H. destruct (readable v) eqn:R.
  - rewrite (get_prop_readable v p R) in H. injection H as H. auto.
  - rewrite (get_prop_unreadable v p R) in H. discriminate.
Qed.

Lemma get_prop_throw (v : value) (p : string) (e : exn) :
  get_prop v p = Throw e -> e = TypeErrorRead p.
Proof.
  intros H. destruct (readable v) eqn:R.
  - rewrite (get_prop_readable v p R) in H. discriminate.
  - rewrite (get_prop_unreadable v p R) in H. now injection H.
Qed.

Lemma assoc_json (p : string) (fields : list (string * value)) (x : value) :
  forallb (fun kv => json_value (snd kv)) fields = true ->
  assoc p fields = Some x -> json_value x = true.
Proof.
  induction fields as [| [k v] rest IH]; simpl; [discriminate |].
  intros H. apply andb_true_iff in H as [Hv Hrest].
  destruct (String.eqb k p).
  - intros E. injection E as <-. exact Hv.
  - auto.
Qed.

Lemma json_value_no_nan (v : value) : json_value v = true -> no_nan v = true.
Proof.
  destruct v; simpl; auto. unfold is_double. intros H.
  apply andb_true_iff in H. tauto.
Qed.

(** A property of a JSON value is a JSON value, a length, or [undefined]:
    never NaN. *)
Lemma prop_no_nan (p : string) (v : value) :
  json_value v = true -> no_nan (prop p v) = true.
Proof.
  unfold prop. destruct v; simpl; auto.
  - destruct (String.eqb p "length"); simpl; auto.
    now rewrite num_of_nat_not_nan.
  - destruct (String.eqb p "length"); simpl; auto.
    now rewrite num_of_nat_not_nan.
  - intros H. destruct (assoc p fields) eqn:E; auto.
    apply json_value_no_nan. eapply assoc_json; eauto.
Qed.

Lemma json_items (a : ident) (l : list value) (x : value) :
  json_value (VArr a l) = true -> In x l -> json_value x = true.
Proof. simpl. intros H. now apply (proj1 (forallb_forall _ _) H). Qed.

(** In a JSON object the [id] read as [undefined] is exactly the absent
    one. *)
Lemma lacks_id_undefined (a : value) :
  json_value a = true -> readable a = true ->
  lacks_id a = strict_equals (id_of a) VUndefined.
Proof.
  unfold lacks_id, has_field, id_of, prop.
  destruct a; simpl; try discriminate; auto.
  intros H _. destruct (assoc "id" fields) eqn:E; auto.
  apply (assoc_json _ _ _ H) in E. destruct v; simpl in *; auto; discriminate.
Qed.

Lemma same_id_refl (a : value) : json_value a = true -> same_id a a = true.
Proof. intros H. apply strict_equals_refl. now apply prop_no_nan. Qed.

Lemma js_or_array (a : ident) (l : list value) (d : value) :
  js_or (VArr a l) d = VArr a l.
Proof. reflexivity. Qed.

(** The falsy values JSON can carry: [null], [false], the zeros and the
    empty string. *)
Lemma falsy_json (v : value) :
  json_value v = true ->
  (truthy v = false <->
   v = VNull \/ v = VBool false \/ (exists s, v = VNum (S754_zero s)) \/ v = VStr "").
Proof.
  destruct v as [| | b | x | s | |]; simpl; try discriminate; intros H.
  - split; auto.
  - destruct b; split; auto; try discriminate.
    intros [E | [E | [[s E] | E]]]; discriminate.
  - destruct x; simpl; try discriminate H.
    + split; eauto.
    + split; [discriminate |]. intros [E | [E | [[s' E] | E]]]; discriminate.
    + split; [discriminate |]. intros [E | [E | [[s' E] | E]]]; discriminate.
  - destruct s; simpl; [ split; auto |].
    split; [discriminate |]. intros [E | [E | [[s' E] | E]]]; discriminate.
  - split; [discriminate |]. intros [E | [E | [[s' E] | E]]]; discriminate.
  - split; [discriminate |]. intros [E | [E | [[s' E] | E]]]; discriminate.
Qed.

(** Induction on a value through the items of its arrays. *)
Lemma value_items_ind (P : value -> Prop) :
  P VUndefined -> P VNull -> (forall b, P (VBool b)) -> (forall x, P (VNum x)) ->
  (forall s, P (VStr s)) ->
  (forall a items, Forall P items -> P (VArr a items)) ->
  (forall a fields, P (VObj a fields)) ->
  forall v, P v.
Proof.
  intros Hu Hn Hb Hx Hs Harr Hobj.
  refine (fix IH (v : value) : P v :=
            match v with
            | VUndefined => Hu
            | VNull => Hn
            | VBool b => Hb b
            | VNum x => Hx x
            | VStr s => Hs s
            | VArr a items =>
                Harr a items
                  ((fix all (l : list value) : Forall P l :=
                      match l with
                      | [] => Forall_nil P
                      | x :: rest => Forall_cons x (IH x) (all rest)
                      end) items)
            | VObj a fields => Hobj a fields
            end).
Qed.

Lemma join_with_throw (conv : value -> result jstring) (l : list value)
  (first : bool) (e : exn) :
  Forall (fun x => forall e', conv x = Throw e' -> e' = TypeErrorConvert) l ->
  join_with conv l first = Throw e -> e = TypeErrorConvert.
Proof.
  intros Hall. revert first. induction Hall as [| x rest Hx _ IH]; intros first.
  - discriminate.
  - simpl.
    destruct (match x with VUndefined | VNull => Ok [] | _ => conv x end)
      as [s | e'] eqn:Ex; cbn [rbind].
    + destruct (join_with conv rest false) as [t | e'] eqn:Et; cbn [rbind].
      * discriminate.
      * intros E. injection E as <-. now apply (IH false).
    + intros E. injection E as <-. apply Hx.
      destruct x; try discriminate Ex; exact Ex.
Qed.

(** The only thing a conversion to a string throws. *)
Lemma to_jstring_throw (v : value) (e : exn) :
  to_jstring v = Throw e -> e = TypeErrorConvert.
Proof.
  revert e. induction v using value_items_ind; intros e; simpl; try discriminate.
  - now apply join_with_throw.
  - destruct (assoc "toString" fields); [| discriminate].
    intros E. now injection E.
Qed.

Lemma to_key_throw (v : value) (e : exn) :
  to_key v = Throw e -> e = TypeErrorConvert.
Proof.
  unfold to_key. destruct v; try discriminate;
    destruct (to_jstring _) eqn:E; try discriminate;
    intros H; injection H as <-; now apply to_jstring_throw in E.
Qed.

Lemma join_with_valid (l : list value) (first : bool) :
  Forall (fun x => valid_child x = true -> converts x = true) l ->
  forallb valid_child l = true ->
  exists s, join_with to_jstring l first = Ok s.
Proof.
  intros Hall. revert first. induction Hall as [| x rest Hx _ IH]; intros first.
  - intros _. exists []. reflexivity.
  - simpl. intros H. apply andb_true_iff in H as [Hv Hrest].
    specialize (Hx Hv). unfold converts in Hx.
    destruct (IH false Hrest) as (t & Et).
    destruct (to_jstring x) as [sx | ex] eqn:E; [| discriminate Hx].
    destruct x; cbn [rbind]; rewrite Et; cbn [rbind]; eauto.
Qed.

(** What React accepts as a child can also be converted to a string. *)
Lemma valid_child_converts (v : value) :
  valid_child v = true -> converts v = true.
Proof.
  induction v using value_items_ind; try reflexivity.
  - intros Hv. unfold converts.
    change (to_jstring (VArr a items)) with (join_with to_jstring items true).
    destruct (join_with_valid items true H Hv) as (s & ->). reflexivity.
  - discriminate.
Qed.

(** A falsy value is accepted as a child: React shows nothing, "0" or
    "NaN" for it. *)
Lemma falsy_valid_child (v : value) : truthy v = false -> valid_child v = true.
Proof. destruct v; simpl; try discriminate; reflexivity. Qed.

End JsFacts.

(* ================================================================== *)
(** ** Deduplication *)
(* ================================================================== *)

Module DedupFacts.
Import Js Dom Component Spec JsFacts.

Lemma uniqueArticles_array (a : ident) (l : list value) :
  uniqueArticles (VArr a l) = filter is_first l.
Proof. reflexivity. Qed.

Lemma shares_id_with_readable (item a : value) :
  readable item = true -> readable a = true ->
  shares_id_with item a = Ok (same_id a item).
Proof.
  intros Hi Ha. unfold shares_id_with.
  rewrite (get_prop_readable a "id" Ha), (get_prop_readable item "id" Hi).
  reflexivity.
Qed.

Section Scan.
Variable item : value.
Hypothesis item_readable : readable item = true.
Hypothesis item_id : same_id item item = true.

(** Scanning [pre ++ item :: rest] stops at [item] exactly when nothing
    in [pre] shares its id. *)
Lemma findIndex_from_first (pre rest : list value) (k : Z) :
  forallb readable pre = true ->
  exists i,
    findIndex_from (shares_id_with item) (pre ++ item :: rest) k = Ok i /\
    Z.eqb i (k + Z.of_nat (List.length pre))
    = negb (existsb (fun y => same_id y item) pre).
Proof.
  revert k. induction pre as [| a pre IH]; intros k Hpre.
  - exists k. simpl.
    rewrite (shares_id_with_readable item item item_readable item_readable).
    simpl. rewrite item_id. split; [reflexivity |].
    apply Z.eqb_eq. lia.
  - simpl in Hpre. apply andb_true_iff in Hpre as [Ha Hpre].
    simpl app. cbn [findIndex_from].
    rewrite (shares_id_with_readable item a item_readable Ha). cbn [rbind].
    destruct (same_id a item) eqn:E.
    + exists k. split; [reflexivity |]. cbn [existsb]. rewrite E. simpl.
      apply Z.eqb_neq. cbn [List.length]. lia.
    + destruct (IH (k + 1)%Z Hpre) as (i & Hi & Hk).
      exists i. split; [exact Hi |]. cbn [existsb]. rewrite E. simpl orb.
      rewrite <- Hk. f_equal. cbn [List.length]. lia.
Qed.
End Scan.

(** [filter] with the first-index test keeps exactly the first
    occurrences. *)
Lemma filter_from_first_occurrences (l pre : list value) :
  forallb readable (pre ++ l) = true ->
  (forall x, In x l -> same_id x x = true) ->
  filter_from is_first (pre ++ l) l (Z.of_nat (List.length pre))
  = Ok (first_occurrences_from pre l).
Proof.
  revert pre. induction l as [| x rest IH]; intros pre Hread Hid; [reflexivity |].
  cbn [filter_from first_occurrences_from].
  pose proof Hread as Hread'.
  rewrite forallb_app in Hread'. apply andb_true_iff in Hread' as [Hpre Hl].
  simpl in Hl. apply andb_true_iff in Hl as [Hx Hrest].
  destruct (findIndex_from_first x Hx (Hid x (or_introl eq_refl)) pre rest 0 Hpre)
    as (i & Hi & Hk).
  unfold is_first at 1, findIndex. rewrite Hi. cbn [rbind].
  rewrite Z.add_0_l in Hk. rewrite Hk.
  replace (pre ++ x :: rest)%list with ((pre ++ [x]) ++ rest)%list
    by (rewrite <- app_assoc; reflexivity).
  replace (Z.of_nat (List.length pre) + 1)%Z
    with (Z.of_nat (List.length (pre ++ [x])%list))
    by (rewrite length_app; simpl; lia).
  rewrite IH.
  - cbn [rbind]. destruct (existsb (fun y => same_id y x) pre); reflexivity.
  - rewrite <- app_assoc. exact Hread.
  - intros y Hy. apply Hid. now right.
Qed.

Lemma uniqueArticles_first_occurrences (a : ident) (l : list value) :
  forallb readable l = true ->
  (forall x, In x l -> same_id x x = true) ->
  uniqueArticles (VArr a l) = Ok (first_occurrences l).
Proof.
  intros Hread Hid. rewrite uniqueArticles_array. unfold filter.
  exact (filter_from_first_occurrences l [] Hread Hid).
Qed.

Lemma uniqueArticles_json (a : ident) (l : list value) :
  json_value (VArr a l) = true -> forallb readable l = true ->
  uniqueArticles (VArr a l) = Ok (first_occurrences l).
Proof.
  intros Hj Hread. apply uniqueArticles_first_occurrences; [exact Hread |].
  intros x Hx. apply same_id_refl. eapply json_items; eauto.
Qed.

Lemma uniqueArticles_not_array (v : value) :
  isArray v = false -> uniqueArticles v = Ok [].
Proof. destruct v; simpl; try discriminate; reflexivity. Qed.

(** *** The kept list *)

Lemma first_occurrences_from_subsequence (l pre : list value) :
  Subsequence (first_occurrences_from pre l) l.
Proof.
  revert pre. induction l as [| x rest IH]; intros pre; simpl.
  - constructor.
  - destruct (existsb (fun y => same_id y x) pre); constructor; apply IH.
Qed.

Lemma first_occurrences_from_in (l pre : list value) (x : value) :
  In x (first_occurrences_from pre l) -> In x l.
Proof.
  revert pre. induction l as [| y rest IH]; intros pre; simpl; [tauto |].
  destruct (existsb (fun z => same_id z y) pre); simpl; intros H.
  - right. eapply IH; eauto.
  - destruct H as [H | H]; [now left | right; eapply IH; eauto].
Qed.

Lemma existsb_incl (f : value -> bool) (small big : list value) :
  incl small big -> existsb f big = false -> existsb f small = false.
Proof.
  intros Hincl Hbig. destruct (existsb f small) eqn:E; [| reflexivity].
  apply existsb_exists in E as (y & Hy & Hf).
  assert (existsb f big = true) by (apply existsb_exists; exists y; auto).
  congruence.
Qed.

(** The kept elements have pairwise different ids. *)
Lemma first_occurrences_from_distinct (l pre pre' : list value) :
  incl pre' pre ->
  ids_distinct_from pre' (first_occurrences_from pre l) = true.
Proof.
  revert pre pre'. induction l as [| x rest IH]; intros pre pre' Hincl; [reflexivity |].
  simpl. destruct (existsb (fun y => same_id y x) pre) eqn:E.
  - apply IH. apply incl_appl. exact Hincl.
  - simpl. rewrite (existsb_incl _ _ _ Hincl E). simpl.
    apply IH. apply incl_app; [apply incl_appl; exact Hincl | apply incl_appr, incl_refl].
Qed.

(** A list whose ids are pairwise different is left as it is. *)
Lemma first_occurrences_from_fixed (l pre : list value) :
  ids_distinct_from pre l = true -> first_occurrences_from pre l = l.
Proof.
  revert pre. induction l as [| x rest IH]; intros pre; simpl; [reflexivity |].
  intros H. apply andb_true_iff in H as [Hx Hrest].
  apply negb_true_iff in Hx. rewrite Hx. f_equal. now apply IH.
Qed.

Lemma first_occurrences_idempotent (l : list value) :
  first_occurrences (first_occurrences l) = first_occurrences l.
Proof.
  apply first_occurrences_from_fixed.
  apply first_occurrences_from_distinct. apply incl_refl.
Qed.

(** Every element of the input shares its id with a kept element that
    stands at or before it. *)
Lemma first_occurrences_from_covers (l pre : list value) (x : value) :
  (forall y, In y l -> same_id y y = true) ->
  In x l ->
  exists y, (In y pre \/ In y (first_occurrences_from pre l)) /\ same_id y x = true.
Proof.
  revert pre. induction l as [| z rest IH]; intros pre Hid Hx; [destruct Hx |].
  simpl. destruct Hx as [-> | Hx].
  - destruct (existsb (fun y => same_id y x) pre) eqn:E.
    + apply existsb_exists in E as (y & Hy & Hs). exists y. auto.
    + exists x. split; [right; now left | apply Hid; now left].
  - destruct (IH (pre ++ [z])%list (fun y Hy => Hid y (or_intror Hy)) Hx) as (y & Hy & Hs).
    destruct Hy as [Hy | Hy].
    + apply in_app_or in Hy as [Hy | [<- | []]].
      * exists y. auto.
      * destruct (existsb (fun y => same_id y z) pre) eqn:E.
        -- apply existsb_exists in E as (u & Hu & Hsu). exists u. split; [auto |].
           unfold same_id in *. eapply strict_equals_trans; eauto.
        -- exists z. split; [right; now left | exact Hs].
    + exists y. split; [| exact Hs].
      destruct (existsb (fun y => same_id y z) pre); [auto | right; now right].
Qed.

(** *** Counting the distinct ids *)

Lemma first_occurrences_from_ids (l pre seen : list value) :
  (forall i, existsb (fun s => strict_equals s i) seen
             = existsb (fun y => strict_equals (id_of y) i) pre) ->
  map id_of (first_occurrences_from pre l) = distinct_from seen (map id_of l).
Proof.
  revert pre seen. induction l as [| x rest IH]; intros pre seen Inv; [reflexivity |].
  simpl. rewrite Inv.
  change (fun y => same_id y x) with (fun y => strict_equals (id_of y) (id_of x)).
  destruct (existsb (fun y => strict_equals (id_of y) (id_of x)) pre) eqn:E.
  - apply IH. intros i. rewrite existsb_app. simpl. rewrite orb_false_r.
    destruct (strict_equals (id_of x) i) eqn:Ei.
    + rewrite orb_true_r. apply existsb_exists.
      rewrite <- Inv in E. apply existsb_exists in E as (s & Hs & Hsx).
      exists s. split; [exact Hs |]. eapply strict_equals_trans; eauto.
    + rewrite orb_false_r. apply Inv.
  - simpl. f_equal. apply IH. intros i. rewrite existsb_app. simpl.
    rewrite orb_false_r, Inv. apply orb_comm.
Qed.

Lemma first_occurrences_count (l : list value) :
  List.length (first_occurrences l) = count_distinct (map id_of l).
Proof.
  unfold count_distinct, first_occurrences.
  rewrite <- (first_occurrences_from_ids l [] []) by reflexivity.
  now rewrite length_map.
Qed.

(** *** Elements whose id reads as [undefined] *)

Lemma id_undefined_same (y x : value) :
  same_id y x = true -> id_undefined x = true -> id_undefined y = true.
Proof.
  unfold same_id, id_undefined. intros Hs Hx.
  eapply strict_equals_trans; eauto.
Qed.

Lemma id_undefined_share (y x : value) :
  id_undefined y = true -> id_undefined x = true -> same_id y x = true.
Proof.
  unfold same_id, id_undefined. intros Hy Hx.
  apply strict_equals_undefined in Hy, Hx. rewrite Hy, Hx. reflexivity.
Qed.

Lemma first_occurrences_from_undefined (l pre : list value) :
  List.filter id_undefined (first_occurrences_from pre l)
  = if existsb id_undefined pre then [] else firstn 1 (List.filter id_undefined l).
Proof.
  revert pre. induction l as [| x rest IH]; intros pre.
  - simpl. destruct (existsb id_undefined pre); reflexivity.
  - cbn [first_occurrences_from List.filter].
    destruct (id_undefined x) eqn:Px.
    + destruct (existsb (fun y => same_id y x) pre) eqn:E.
      * rewrite IH, existsb_app. simpl. rewrite Px, orb_true_r.
        apply existsb_exists in E as (y & Hy & Hs).
        assert (existsb id_undefined pre = true) as ->; [| reflexivity].
        apply existsb_exists. exists y. split; [exact Hy |].
        eapply id_undefined_same; eauto.
      * cbn [List.filter]. rewrite Px, IH, existsb_app. simpl.
        rewrite Px, orb_true_r.
        destruct (existsb id_undefined pre) eqn:Epre; [| reflexivity].
        apply existsb_exists in Epre as (y & Hy & Py).
        assert (existsb (fun y => same_id y x) pre = true); [| congruence].
        apply existsb_exists. exists y. split; [exact Hy |].
        now apply id_undefined_share.
    + assert (Hpre : existsb id_undefined (pre ++ [x]) = existsb id_undefined pre).
      { rewrite existsb_app. simpl. rewrite Px. now rewrite !orb_false_r. }
      destruct (existsb (fun y => same_id y x) pre).
      * now rewrite IH, Hpre.
      * cbn [List.filter]. now rewrite Px, IH, Hpre.
Qed.

(** *** An element that cannot be read *)

Lemma findIndex_from_throws (item : value) (l : list value) (k : Z) :
  (exists i, findIndex_from (shares_id_with item) l k = Ok i)
  \/ findIndex_from (shares_id_with item) l k = Throw (TypeErrorRead "id").
Proof.
  revert k. induction l as [| a rest IH]; intros k; simpl; [eauto |].
  unfold shares_id_with at 1 3.
  destruct (get_prop a "id") eqn:Ea; cbn [rbind].
  - destruct (get_prop item "id") eqn:Ei; cbn [rbind].
    + destruct (strict_equals a0 a1); [eauto | apply IH].
    + right. now rewrite (get_prop_throw _ _ _ Ei).
  - right. now rewrite (get_prop_throw _ _ _ Ea).
Qed.

Lemma is_first_unreadable (x a : value) (arr : list value) (idx : Z) :
  readable x = false ->
  is_first x idx (a :: arr) = Throw (TypeErrorRead "id").
Proof.
  intros Hx. unfold is_first, findIndex. simpl. unfold shares_id_with.
  destruct (readable a) eqn:Ha.
  - rewrite (get_prop_readable a "id" Ha), (get_prop_unreadable x "id" Hx). reflexivity.
  - rewrite (get_prop_unreadable a "id" Ha). reflexivity.
Qed.

Lemma filter_from_unreadable (l arr : list value) (a : value) (idx : Z) :
  forallb readable l = false ->
  filter_from is_first (a :: arr) l idx = Throw (TypeErrorRead "id").
Proof.
  revert idx. induction l as [| x rest IH]; intros idx; simpl; [discriminate |].
  destruct (readable x) eqn:Hx; simpl.
  - intros Hrest. rewrite (IH _ Hrest).
    unfold is_first, findIndex.
    destruct (findIndex_from_throws x (a :: arr) 0) as [(i & ->) | ->]; reflexivity.
  - intros _. now rewrite is_first_unreadable.
Qed.

(** Deduplication throws as soon as an element is [null] or [undefined]. *)
Lemma uniqueArticles_unreadable (a : ident) (l : list value) :
  forallb readable l = false ->
  uniqueArticles (VArr a l) = Throw (TypeErrorRead "id").
Proof.
  intros H. rewrite uniqueArticles_array. unfold filter.
  destruct l as [| x rest]; [discriminate |].
  now apply filter_from_unreadable.
Qed.

(** *** Readable elements *)

Lemma shares_id_with_total (item : value) (l : list value) (k : Z) :
  readable item = true -> forallb readable l = true ->
  exists i, findIndex_from (shares_id_with item) l k = Ok i.
Proof.
  intros Hi. revert k. induction l as [| a rest IH]; intros k; simpl; [eauto |].
  intros H. apply andb_true_iff in H as [Ha Hrest].
  rewrite (shares_id_with_readable item a Hi Ha). cbn [rbind].
  destruct (same_id a item); [eauto | now apply IH].
Qed.

Lemma filter_from_total (arr l : list value) (idx : Z) :
  forallb readable arr = true -> forallb readable l = true ->
  exists u, filter_from is_first arr l idx = Ok u /\ incl u l.
Proof.
  intros Harr. revert idx. induction l as [| x rest IH]; intros idx; simpl.
  - intros _. exists []. split; [reflexivity | apply incl_refl].
  - intros H. apply andb_true_iff in H as [Hx Hrest].
    unfold is_first at 1, findIndex.
    destruct (shares_id_with_total x arr 0 Hx Harr) as (i & ->). cbn [rbind].
    destruct (IH (idx + 1)%Z Hrest) as (u & -> & Hu). cbn [rbind].
    destruct (Z.eqb i idx); eexists; (split; [reflexivity |]).
    + intros y [<- | Hy]; [now left | right; now apply Hu].
    + now apply incl_tl.
Qed.

(** On readable elements deduplication does not throw, and keeps only
    elements of the input. *)
Lemma uniqueArticles_total (a : ident) (l : list value) :
  forallb readable l = true ->
  exists u, uniqueArticles (VArr a l) = Ok u /\ forallb readable u = true.
Proof.
  intros H. rewrite uniqueArticles_array. unfold filter.
  destruct (filter_from_total l l 0 H H) as (u & -> & Hu).
  exists u. split; [reflexivity |].
  apply forallb_forall. intros x Hx.
  exact (proj1 (forallb_forall _ _) H x (Hu x Hx)).
Qed.

End DedupFacts.

(* ================================================================== *)
(** ** Running [fetchData] *)
(* ================================================================== *)

Module LoadFacts.
Import Js Dom Component Spec JsFacts.

Ltac run_mount H :=
  unfold mount, completed, fetchData, try_catch_finally, bind, do_fetch;
  cbn [view requests date_now]; unfold request in H; rewrite H; cbn.

Lemma mount_transport (w : world) (e : exn) :
  fetch w (request w) = Rejected e -> mount w = completed w failed_state.
Proof. intros H. run_mount H. reflexivity. Qed.

Lemma mount_status (w : world) (r : response) :
  fetch w (request w) = Fulfilled r -> ok r = false ->
  mount w = completed w failed_state.
Proof. intros H Hok. run_mount H. rewrite Hok. reflexivity. Qed.

Lemma mount_parse (w : world) (r : response) (e : exn) :
  fetch w (request w) = Fulfilled r -> ok r = true -> json r = Rejected e ->
  mount w = completed w failed_state.
Proof.
  intros H Hok Hjson. run_mount H. rewrite Hok. cbn.
  unfold await. rewrite Hjson. reflexivity.
Qed.

(** A parsed body: the load ends in [ready_state], or in [failed_state]
    when reading [daily_news] throws. *)
Lemma mount_body (w : world) (r : response) (body : value) :
  fetch w (request w) = Fulfilled r -> ok r = true -> json r = Fulfilled body ->
  mount w = completed w match get_prop body "daily_news" with
                        | Ok daily_news => ready_state daily_news
                        | Throw _ => failed_state
                        end.
Proof.
  intros H Hok Hjson. run_mount H. rewrite Hok. cbn.
  unfold await. rewrite Hjson.
  destruct (get_prop body "daily_news"); reflexivity.
Qed.

Lemma mount_stalled_request (w : world) :
  fetch w (request w) = Pending ->
  mount w = (Pending, {| view := initial_state; requests := [request w] |}).
Proof. intros H. run_mount H. reflexivity. Qed.

Lemma mount_stalled_body (w : world) (r : response) :
  fetch w (request w) = Fulfilled r -> ok r = true -> json r = Pending ->
  mount w = (Pending, {| view := initial_state; requests := [request w] |}).
Proof.
  intros H Hok Hjson. run_mount H. rewrite Hok. cbn.
  unfold await. rewrite Hjson. reflexivity.
Qed.

(** Every run either never resumes, or ends fulfilled in one of the two
    final states, having sent one request. *)
Lemma mount_cases (w : world) :
  mount w = (Pending, {| view := initial_state; requests := [request w] |})
  \/ mount w = completed w failed_state
  \/ exists daily_news, mount w = completed w (ready_state daily_news).
Proof.
  destruct (fetch w (request w)) as [r | e |] eqn:H.
  - destruct (ok r) eqn:Hok.
    + destruct (json r) as [body | e |] eqn:Hjson.
      * right. rewrite (mount_body w r body H Hok Hjson).
        destruct (get_prop body "daily_news"); eauto.
      * right. left. eapply mount_parse; eauto.
      * left. eapply mount_stalled_body; eauto.
    + right. left. eapply mount_status; eauto.
  - right. left. eapply mount_transport; eauto.
  - left. now apply mount_stalled_request.
Qed.

Lemma mount_delivers (w : world) (body : value) :
  Delivers w body ->
  mount w = completed w match get_prop body "daily_news" with
                        | Ok daily_news => ready_state daily_news
                        | Throw _ => failed_state
                        end.
Proof. intros (r & H & Hok & Hjson & _). eapply mount_body; eauto. Qed.

Lemma loaded_completed (w : world) (st : state) :
  mount w = completed w st -> loaded w = st.
Proof. unfold loaded. now intros ->. Qed.

End LoadFacts.

(* ================================================================== *)
(** ** Rendering *)
(* ================================================================== *)

Module RenderFacts.
Import Js Dom Component Spec JsFacts DedupFacts.

Lemma render_failed : render failed_state = Ok (error_view (VStr load_failed_message)).
Proof. reflexivity. Qed.

(** Only a state with [loading] set renders the loading view. *)
Lemma render_loading_view (st : state) :
  render st = Ok loading_view -> loading st = true.
Proof.
  unfold render. destruct (loading st); [reflexivity |].
  destruct (truthy (error st)); [discriminate |].
  destruct (no_news (data st)) as [[|] | e]; cbn [rbind]; try discriminate.
  destruct (uniqueArticles (data st)) as [u | e]; cbn [rbind]; try discriminate.
  destruct (map_result card u) as [cs | e]; cbn [rbind]; discriminate.
Qed.

Lemma no_news_falsy (v : value) : truthy v = false -> no_news v = Ok true.
Proof. unfold no_news. now intros ->. Qed.

Lemma no_news_array (a : ident) (l : list value) :
  no_news (VArr a l) = Ok (Nat.eqb (List.length l) 0).
Proof. unfold no_news. simpl. now rewrite length_is_zero. Qed.

Lemma truthy_readable (v : value) : truthy v = true -> readable v = true.
Proof. destruct v; simpl; auto. Qed.

Lemma no_news_truthy (v : value) :
  truthy v = true ->
  no_news v = Ok (strict_equals (prop "length" v) (VNum zero)).
Proof.
  intros H. unfold no_news. rewrite H. simpl negb. cbv iota.
  rewrite (get_prop_readable v "length" (truthy_readable v H)). reflexivity.
Qed.

(** A falsy [daily_news], absent or present, renders the empty view. *)
Lemma render_falsy (v : value) :
  truthy v = false ->
  data (ready_state v) = VArr fresh_array [] /\ render (ready_state v) = Ok empty_view.
Proof.
  intros H. unfold ready_state, js_or. rewrite H. split; reflexivity.
Qed.

(** *** Cards *)

Lemma js_and_node_readable (guard : value) (n : node) :
  js_and_node guard (Ok n) = Ok (if truthy guard then n else Expr guard).
Proof. unfold js_and_node. destruct (truthy guard); reflexivity. Qed.

(** The card of a readable element is decided by the conversion of its id
    to a key. *)
Lemma card_readable (a : value) :
  readable a = true ->
  card a = match to_key (id_of a) with
           | Ok _ => Ok (card_tree a)
           | Throw _ => Throw TypeErrorConvert
           end.
Proof.
  intros H. unfold card.
  rewrite !(get_prop_readable a _ H). cbn [rbind].
  rewrite !js_and_node_readable. cbn [rbind].
  unfold card_tree, key_tree, image_slot, text_slot, id_of.
  destruct (to_key (prop "id" a)) as [key | e] eqn:E; cbn [rbind]; [reflexivity |].
  now rewrite (to_key_throw _ _ E).
Qed.

Lemma card_keyable (a : value) :
  readable a = true -> keyable a = true -> card a = Ok (card_tree a).
Proof.
  intros Hr Hk. rewrite (card_readable a Hr). unfold keyable in Hk.
  destruct (to_key (id_of a)); [reflexivity | discriminate].
Qed.

Lemma card_unkeyable (a : value) :
  readable a = true -> keyable a = false -> card a = Throw TypeErrorConvert.
Proof.
  intros Hr Hk. rewrite (card_readable a Hr). unfold keyable in Hk.
  destruct (to_key (id_of a)); [discriminate | reflexivity].
Qed.

Lemma map_card_keyable (l : list value) :
  forallb readable l = true -> forallb keyable l = true ->
  map_result card l = Ok (map card_tree l).
Proof.
  induction l as [| a rest IH]; simpl; [reflexivity |].
  intros H K. apply andb_true_iff in H as [Ha Hrest].
  apply andb_true_iff in K as [Ka Krest].
  now rewrite (card_keyable a Ha Ka), (IH Hrest Krest).
Qed.

Lemma map_card_unkeyable (l : list value) :
  forallb readable l = true -> forallb keyable l = false ->
  map_result card l = Throw TypeErrorConvert.
Proof.
  induction l as [| a rest IH]; simpl; [discriminate |].
  intros H K. apply andb_true_iff in H as [Ha Hrest].
  destruct (keyable a) eqn:Ka.
  - rewrite (card_keyable a Ha Ka). cbn [rbind]. simpl in K.
    now rewrite (IH Hrest K).
  - now rewrite (card_unkeyable a Ha Ka).
Qed.

(** React can show a card when it can show its fields. *)
Lemma displayable_card (a : value) :
  displayable (card_tree a) = fields_showable a.
Proof.
  unfold fields_showable, card_tree, image_slot, text_slot.
  destruct (truthy (prop "image_url" a)) eqn:Ei,
           (truthy (prop "text" a)) eqn:Et;
    cbn [displayable forallb snd valid_attr image_block title_block text_block
         negb orb andb];
    rewrite ?(falsy_valid_child _ Ei), ?(falsy_valid_child _ Et);
    destruct (valid_child (prop "title" a)) eqn:Hv;
    rewrite ?(valid_child_converts _ Hv);
    destruct (converts (prop "image_url" a));
    destruct (valid_child (prop "text" a)); try reflexivity;
    destruct (converts (prop "title" a)); reflexivity.
Qed.

Lemma displayable_ready (cards : list node) :
  displayable (ready_view cards) = forallb displayable cards.
Proof.
  unfold ready_view.
  cbn [displayable forallb snd valid_attr andb].
  now rewrite !andb_true_r.
Qed.

Lemma first_occurrences_readable (l : list value) :
  forallb readable l = true -> forallb readable (first_occurrences l) = true.
Proof.
  intros H. apply forallb_forall. intros x Hx.
  apply (proj1 (forallb_forall _ _) H).
  eapply first_occurrences_from_in. exact Hx.
Qed.

(** A card is one [<article>] and holds no other. *)
Lemma elements_card (a : value) : elements "article" (card_tree a) = [card_tree a].
Proof.
  unfold elements, card_tree, image_slot, text_slot.
  destruct (truthy (prop "image_url" a)), (truthy (prop "text" a)); reflexivity.
Qed.

Lemma elements_cards (l : list value) :
  List.filter (tag_is "article") (flat_map descendants (map card_tree l))
  = map card_tree l.
Proof.
  induction l as [| a rest IH]; [reflexivity |].
  cbn [map flat_map]. rewrite filter_app, IH.
  change (List.filter (tag_is "article") (descendants (card_tree a)))
    with (elements "article" (card_tree a)).
  now rewrite elements_card.
Qed.

Lemma cards_of_ready (l : list value) :
  cards_of (ready_view (map card_tree l)) = map card_tree l.
Proof.
  unfold cards_of, elements, ready_view.
  cbn [descendants flat_map List.filter tag_is app String.eqb Ascii.eqb Bool.eqb].
  rewrite !app_nil_r.
  cbn [descendants flat_map List.filter tag_is app String.eqb Ascii.eqb Bool.eqb].
  apply elements_cards.
Qed.

Lemma cards_of_empty : cards_of empty_view = [].
Proof. reflexivity. Qed.

Lemma render_array (a : ident) (l : list value) :
  json_value (VArr a l) = true -> forallb readable l = true ->
  forallb keyable (first_occurrences l) = true ->
  render (ready_state (VArr a l)) = Ok (array_view l).
Proof.
  intros Hj Hread Hkey. unfold render, ready_state. cbn [loading error data truthy].
  rewrite js_or_array, no_news_array. cbn [rbind].
  destruct l as [| x rest]; [reflexivity |]. cbn [List.length Nat.eqb].
  rewrite (uniqueArticles_json a _ Hj Hread). cbn [rbind].
  rewrite (map_card_keyable _ (first_occurrences_readable _ Hread) Hkey).
  reflexivity.
Qed.

(** The element tree of an array is one React can show when it can show the
    fields of the articles kept. *)
Lemma displayable_array_view (l : list value) :
  forallb fields_showable (first_occurrences l) = true ->
  displayable (array_view l) = true.
Proof.
  intros H. destruct l as [| x rest]; [reflexivity |].
  unfold array_view. rewrite displayable_ready.
  induction (first_occurrences (x :: rest)) as [| a kept IH]; [reflexivity |].
  cbn [map forallb] in *. apply andb_true_iff in H as [Ha Hkept].
  now rewrite displayable_card, Ha, (IH Hkept).
Qed.

(** What rendering a stored array of readable elements gives: the empty
    view, the cards of the articles kept, or the error of a key that cannot
    be made. *)
Lemma render_readable_array (a : ident) (l : list value) :
  forallb readable l = true ->
  exists u,
    uniqueArticles (VArr a l) = Ok u
    /\ render (ready_state (VArr a l))
       = match l with
         | [] => Ok empty_view
         | _ => if forallb keyable u
                then Ok (ready_view (map card_tree u))
                else Throw TypeErrorConvert
         end.
Proof.
  intros H. destruct (uniqueArticles_total a l H) as (u & Eu & Hu).
  exists u. split; [exact Eu |].
  unfold render, ready_state. cbn [loading error data truthy].
  rewrite js_or_array, no_news_array. cbn [rbind].
  destruct l as [| x rest]; [reflexivity |]. cbn [List.length Nat.eqb].
  rewrite Eu. cbn [rbind].
  destruct (forallb keyable u) eqn:K.
  - now rewrite (map_card_keyable u Hu K).
  - now rewrite (map_card_unkeyable u Hu K).
Qed.

Lemma cards_of_array_view (l : list value) :
  cards_of (array_view l) = map card_tree (first_occurrences l).
Proof. destruct l; [reflexivity | apply cards_of_ready]. Qed.

(** With an element that cannot be read, rendering throws. *)
Lemma render_unreadable (a : ident) (l : list value) :
  forallb readable l = false ->
  render (ready_state (VArr a l)) = Throw (TypeErrorRead "id").
Proof.
  intros H. unfold render, ready_state. cbn [loading error data truthy].
  rewrite js_or_array, no_news_array. cbn [rbind].
  destruct l as [| x rest]; [discriminate |]. cbn [List.length Nat.eqb].
  now rewrite (uniqueArticles_unreadable a _ H).
Qed.

(** A truthy value that is not an array renders no card. *)
Lemma render_not_array (v : value) :
  truthy v = true -> isArray v = false ->
  render (ready_state v) = Ok empty_view \/ render (ready_state v) = Ok (ready_view []).
Proof.
  intros Ht Ha. unfold render, ready_state, js_or. rewrite Ht.
  cbn [loading error data truthy]. rewrite (no_news_truthy v Ht). cbn [rbind].
  destruct (strict_equals (prop "length" v) (VNum zero)); [now left | right].
  now rewrite (uniqueArticles_not_array v Ha).
Qed.

End RenderFacts.

(* ================================================================== *)
(** ** The component's contract *)
(* ================================================================== *)

Import Js Dom Component Spec Feeds JsFacts DedupFacts LoadFacts RenderFacts.

Lemma delivers_serving (now : Z) (body : value) :
  json_value body = true -> Delivers (serving now body) body.
Proof. intros H. eexists. repeat split; try reflexivity. exact H. Qed.

Lemma loaded_delivers (w : world) (body daily_news : value) :
  Delivers w body -> get_prop body "daily_news" = Ok daily_news ->
  loaded w = ready_state daily_news.
Proof.
  intros Hd Hg. apply loaded_completed.
  rewrite (mount_delivers w body Hd), Hg. reflexivity.
Qed.

Lemma delivers_json (w : world) (body : value) :
  Delivers w body -> json_value body = true.
Proof. now intros (r & _ & _ & _ & H). Qed.

Lemma daily_news_json (body v : value) :
  json_value body = true -> get_prop body "daily_news" = Ok v ->
  v = VUndefined \/ json_value v = true.
Proof.
  destruct body; simpl; try discriminate.
  - intros _ E. injection E as <-. now left.
  - intros _ E. injection E as <-. now left.
  - intros _ E. injection E as <-. now left.
  - intros _ E. injection E as <-. now left.
  - intros H E. destruct (assoc "daily_news" fields) eqn:A.
    + injection E as <-. right. eapply assoc_json; eauto.
    + injection E as <-. now left.
Qed.

Lemma showable_all (l : list value) :
  forallb showable l = true ->
  forallb keyable l = true /\ forallb fields_showable l = true.
Proof.
  induction l as [| a rest IH]; simpl; [auto |].
  intros H. apply andb_true_iff in H as [Ha Hrest].
  unfold showable in Ha. apply andb_true_iff in Ha as [Hk Hf].
  destruct (IH Hrest) as [Hks Hfs]. now rewrite Hk, Hf, Hks, Hfs.
Qed.

(** C1 (as amended).  When the feed is delivered, [daily_news] is an array
    none of whose elements is [null], and each first occurrence of an id has
    an id that converts to a key and fields React can show, the rendered
    cards are the cards of the input filtered to the first occurrence of each
    id, in the original order: as many as there are distinct ids, with
    pairwise different ids, and every input element shares its id with a
    rendered one. *)
Theorem rendered_cards_first_occurrences
  (w : world) (body : value) (a : ident) (l : list value) :
  Delivers w body ->
  get_prop body "daily_news" = Ok (VArr a l) ->
  forallb readable l = true ->
  forallb showable (first_occurrences l) = true ->
  exists tree,
    render (loaded w) = Ok tree
    /\ displayable tree = true
    /\ uniqueArticles (data (loaded w)) = Ok (first_occurrences l)
    /\ map_result card (first_occurrences l) = Ok (cards_of tree)
    /\ List.length (cards_of tree) = count_distinct (map id_of l)
    /\ Subsequence (first_occurrences l) l
    /\ ids_distinct (first_occurrences l) = true
    /\ (forall x, In x l ->
        exists y, In y (first_occurrences l) /\ same_id y x = true).
Proof.
  intros Hd Hg Hread Hshow.
  destruct (showable_all _ Hshow) as [Hkey Hfields].
  assert (Hj : json_value (VArr a l) = true).
  { destruct (daily_news_json body _ (delivers_json w body Hd) Hg) as [E | E];
      [discriminate | exact E]. }
  rewrite (loaded_delivers w body _ Hd Hg).
  exists (array_view l). split; [now apply render_array |].
  split; [now apply displayable_array_view |].
  rewrite cards_of_array_view. repeat split.
  - unfold ready_state. cbn [data]. rewrite js_or_array.
    now apply uniqueArticles_json.
  - apply map_card_keyable; [now apply first_occurrences_readable | exact Hkey].
  - rewrite length_map. apply first_occurrences_count.
  - apply first_occurrences_from_subsequence.
  - apply first_occurrences_from_distinct, incl_refl.
  - intros x Hx.
    destruct (first_occurrences_from_covers l [] x) as (y & [[] | Hy] & Hs); eauto.
    intros z Hz. apply same_id_refl. eapply json_items; eauto.
Qed.

Lemma rendered_cards_first_occurrences_witness :
  exists tree,
    render (loaded (serving 0 scenario)) = Ok tree
    /\ displayable tree = true
    /\ uniqueArticles (data (loaded (serving 0 scenario)))
       = Ok (first_occurrences scenario_items)
    /\ map_result card (first_occurrences scenario_items) = Ok (cards_of tree)
    /\ List.length (cards_of tree) = count_distinct (map id_of scenario_items)
    /\ Subsequence (first_occurrences scenario_items) scenario_items
    /\ ids_distinct (first_occurrences scenario_items) = true
    /\ (forall x, In x scenario_items ->
        exists y, In y (first_occurrences scenario_items) /\ same_id y x = true).
Proof.
  apply (rendered_cards_first_occurrences (serving 0 scenario) scenario 2 scenario_items).
  - exists {| ok := true; json := Fulfilled scenario |}.
    repeat split; reflexivity.
  - reflexivity.
  - reflexivity.
  - reflexivity.
Defined.

(** C1, as stated, fails on three feeds whose [daily_news] is an array of one
    element with one distinct id.  On [{"daily_news":[null]}] rendering
    throws when the id is read.  On
    [{"daily_news":[{"id":{"toString":1},"title":"A"}]}] no element is
    [null] and rendering throws when the id is made the key of the card.  On
    [{"daily_news":[{"id":1,"title":{"en":"A"}}]}] a tree is returned whose
    title React refuses to show.  No card is shown in any of them. *)
Lemma null_item_not_rendered :
  (Delivers (serving 0 null_item_feed) null_item_feed
   /\ get_prop null_item_feed "daily_news" = Ok (VArr 2 [VNull])
   /\ first_occurrences [VNull] = [VNull]
   /\ count_distinct (map id_of [VNull]) = 1
   /\ render (loaded (serving 0 null_item_feed)) = Throw (TypeErrorRead "id"))
  /\ (Delivers (serving 0 unkeyable_feed) unkeyable_feed
      /\ get_prop unkeyable_feed "daily_news" = Ok (VArr 2 [unkeyable_article])
      /\ readable unkeyable_article = true
      /\ count_distinct (map id_of [unkeyable_article]) = 1
      /\ render (loaded (serving 0 unkeyable_feed)) = Throw TypeErrorConvert)
  /\ (Delivers (serving 0 object_title_feed) object_title_feed
      /\ get_prop object_title_feed "daily_news"
         = Ok (VArr 2 [object_title_article])
      /\ readable object_title_article = true
      /\ count_distinct (map id_of [object_title_article]) = 1
      /\ exists tree,
           render (loaded (serving 0 object_title_feed)) = Ok tree
           /\ displayable tree = false).
Proof.
  split; [| split].
  - split; [apply delivers_serving; reflexivity |].
    repeat split; reflexivity.
  - split; [apply delivers_serving; reflexivity |].
    repeat split; reflexivity.
  - split; [apply delivers_serving; reflexivity |].
    repeat split; try reflexivity.
    eexists. split; reflexivity.
Qed.

(** C2.  Every failed load (the transport rejects, the status is not a
    success whatever the body holds, or the body of a successful response is
    not JSON) ends in the error state with the one fixed message, which is
    what is rendered; one request was sent and no other. *)
Theorem load_failure_shows_fixed_message (w : world) :
  Fails w ->
  fst (mount w) = Fulfilled tt
  /\ loaded w = failed_state
  /\ error (loaded w) = VStr "No se pudieron cargar las noticias de ISOTools."
  /\ render (loaded w)
     = Ok (error_view (VStr "No se pudieron cargar las noticias de ISOTools."))
  /\ requests (snd (mount w)) = [request w].
Proof.
  intros Hf.
  assert (Hm : mount w = completed w failed_state).
  { destruct Hf as [e H | r H Hok | r e H Hok Hjson].
    - eapply mount_transport; eauto.
    - eapply mount_status; eauto.
    - eapply mount_parse; eauto. }
  unfold loaded. rewrite Hm. repeat split; reflexivity.
Qed.

Lemma load_failure_shows_fixed_message_witness :
  Fails (refusing 0 (Fulfilled scenario))
  /\ render (loaded (refusing 0 (Fulfilled scenario)))
     = Ok (error_view (VStr "No se pudieron cargar las noticias de ISOTools.")).
Proof.
  assert (Hf : Fails (refusing 0 (Fulfilled scenario))).
  { apply (fails_status _ {| ok := false; json := Fulfilled scenario |});
      reflexivity. }
  split; [exact Hf |].
  exact (proj1 (proj2 (proj2 (proj2
    (load_failure_shows_fixed_message (refusing 0 (Fulfilled scenario)) Hf))))).
Defined.

Lemma lacks_daily_news (body : value) :
  readable body = true -> has_field "daily_news" body = false ->
  get_prop body "daily_news" = Ok VUndefined.
Proof.
  destruct body; simpl; try discriminate; auto.
  destruct (assoc "daily_news" fields); [discriminate | reflexivity].
Qed.

(** C3 (as amended).  When a successful response carries a JSON body that is
    not [null] and has no [daily_news] field, the load stores the empty
    sequence and the component renders the empty state with
    "No hay noticias disponibles.", not the error state. *)
Theorem absent_daily_news_renders_empty (w : world) (body : value) :
  Delivers w body ->
  body <> VNull ->
  has_field "daily_news" body = false ->
  data (loaded w) = VArr fresh_array []
  /\ error (loaded w) = VNull
  /\ render (loaded w)
     = Ok (Elem "section" None [("className", AStr "py-12 text-center")]
             [Elem "p" None [] [Text "No hay noticias disponibles."]]).
Proof.
  intros Hd Hnull Hlacks.
  assert (Hread : readable body = true).
  { pose proof (delivers_json w body Hd) as Hj.
    destruct body; try reflexivity; [discriminate Hj | congruence]. }
  rewrite (loaded_delivers w body VUndefined Hd (lacks_daily_news body Hread Hlacks)).
  repeat split; reflexivity.
Qed.

Lemma absent_daily_news_renders_empty_witness :
  render (loaded (serving 0 (VObj 1 [("other", VBool true)]))) = Ok empty_view.
Proof.
  apply (absent_daily_news_renders_empty
           (serving 0 (VObj 1 [("other", VBool true)]))
           (VObj 1 [("other", VBool true)])).
  - exists {| ok := true; json := Fulfilled (VObj 1 [("other", VBool true)]) |}.
    repeat split; reflexivity.
  - discriminate.
  - reflexivity.
Defined.

(** C3, as stated, fails on the body [null]: it is JSON, it has no
    [daily_news] field, and reading the field throws inside the [try], so the
    component ends in the error state. *)
Lemma null_body_renders_error :
  Delivers (serving 0 VNull) VNull
  /\ has_field "daily_news" VNull = false
  /\ loaded (serving 0 VNull) = failed_state
  /\ render (loaded (serving 0 VNull))
     = Ok (error_view (VStr "No se pudieron cargar las noticias de ISOTools."))
  /\ render (loaded (serving 0 VNull)) <> Ok empty_view.
Proof.
  split; [apply delivers_serving; reflexivity |].
  repeat split; try reflexivity. discriminate.
Qed.

Lemma mount_completes_iff (w : world) : fst (mount w) <> Pending <-> ~ Stalls w.
Proof.
  unfold Stalls. split.
  - intros Hc [H | (r & H & Hok & Hjson)]; apply Hc.
    + now rewrite (mount_stalled_request w H).
    + now rewrite (mount_stalled_body w r H Hok Hjson).
  - intros Hs Hp. apply Hs.
    destruct (fetch w (request w)) as [r | e |] eqn:H; [| | now left].
    + destruct (ok r) eqn:Hok.
      * destruct (json r) as [body | e |] eqn:Hjson.
        -- rewrite (mount_body w r body H Hok Hjson) in Hp. discriminate.
        -- rewrite (mount_parse w r e H Hok Hjson) in Hp. discriminate.
        -- right. eauto.
      * rewrite (mount_status w r H Hok) in Hp. discriminate.
    + rewrite (mount_transport w e H) in Hp. discriminate.
Qed.

(** C4.  Whenever a load completes, through success or through any failure,
    it completes normally with the loading flag cleared, and what is rendered
    from then on is not the loading view. *)
Theorem loading_cleared_on_completion (w : world) :
  fst (mount w) <> Pending ->
  fst (mount w) = Fulfilled tt
  /\ loading (loaded w) = false
  /\ render (loaded w) <> Ok loading_view.
Proof.
  intros Hc.
  assert (Hl : fst (mount w) = Fulfilled tt /\ loading (loaded w) = false).
  { unfold loaded.
    destruct (mount_cases w) as [E | [E | [daily_news E]]]; rewrite E in *.
    - now contradiction Hc.
    - split; reflexivity.
    - split; reflexivity. }
  destruct Hl as [Hf Hl]. repeat split; auto.
  intros Hr. apply render_loading_view in Hr. congruence.
Qed.

Lemma loading_cleared_on_completion_witness :
  fst (mount (refusing 0 Pending)) <> Pending
  /\ loading (loaded (refusing 0 Pending)) = false
  /\ loading (loaded (serving 0 scenario)) = false.
Proof.
  split; [discriminate |]. split.
  - apply (loading_cleared_on_completion (refusing 0 Pending)). discriminate.
  - apply (loading_cleared_on_completion (serving 0 scenario)). discriminate.
Defined.

(** C5.  When the fetched [daily_news] is not an array, deduplication yields
    the empty list and the rendered tree holds no card. *)
Theorem non_sequence_renders_no_card (w : world) (body v : value) :
  Delivers w body ->
  get_prop body "daily_news" = Ok v ->
  isArray v = false ->
  uniqueArticles v = Ok []
  /\ uniqueArticles (data (loaded w)) = Ok []
  /\ exists tree, render (loaded w) = Ok tree /\ cards_of tree = [].
Proof.
  intros Hd Hg Ha.
  rewrite (loaded_delivers w body v Hd Hg).
  split; [now apply uniqueArticles_not_array |].
  destruct (truthy v) eqn:Ht.
  - split.
    + unfold ready_state, js_or. rewrite Ht. now apply uniqueArticles_not_array.
    + destruct (render_not_array v Ht Ha) as [E | E]; rewrite E; eauto.
  - destruct (render_falsy v Ht) as [Edata Erender]. rewrite Edata, Erender.
    split; [reflexivity | eauto].
Qed.

Lemma non_sequence_renders_no_card_witness :
  uniqueArticles (VStr "soon") = Ok []
  /\ uniqueArticles (data (loaded (serving 0 (VObj 1 [("daily_news", VStr "soon")]))))
     = Ok []
  /\ exists tree,
       render (loaded (serving 0 (VObj 1 [("daily_news", VStr "soon")]))) = Ok tree
       /\ cards_of tree = [].
Proof.
  apply (non_sequence_renders_no_card
           (serving 0 (VObj 1 [("daily_news", VStr "soon")]))
           (VObj 1 [("daily_news", VStr "soon")]) (VStr "soon")).
  - exists {| ok := true; json := Fulfilled (VObj 1 [("daily_news", VStr "soon")]) |}.
    repeat split; reflexivity.
  - reflexivity.
  - reflexivity.
Defined.

(** C6.  Two loads of the same payload, whatever their clocks and request
    URLs, give the same deduplicated list in the same order and the same
    rendered tree; and deduplicating that list again leaves it unchanged. *)
Theorem deduplication_repeatable
  (w1 w2 : world) (body : value) (a : ident) (l : list value) :
  Delivers w1 body ->
  Delivers w2 body ->
  get_prop body "daily_news" = Ok (VArr a l) ->
  forallb readable l = true ->
  exists u,
    uniqueArticles (data (loaded w1)) = Ok u
    /\ uniqueArticles (data (loaded w2)) = Ok u
    /\ render (loaded w1) = render (loaded w2)
    /\ forall a', uniqueArticles (VArr a' u) = Ok u.
Proof.
  intros H1 H2 Hg Hread.
  assert (Hj : json_value (VArr a l) = true).
  { destruct (daily_news_json body _ (delivers_json w1 body H1) Hg) as [E | E];
      [discriminate | exact E]. }
  rewrite (loaded_delivers w1 body _ H1 Hg), (loaded_delivers w2 body _ H2 Hg).
  exists (first_occurrences l).
  assert (Hu : uniqueArticles (data (ready_state (VArr a l))) = Ok (first_occurrences l)).
  { unfold ready_state. cbn [data]. rewrite js_or_array.
    now apply uniqueArticles_json. }
  repeat split; auto.
  intros a'. rewrite <- (first_occurrences_idempotent l) at 2.
  apply uniqueArticles_first_occurrences.
  - now apply first_occurrences_readable.
  - intros x Hx. apply same_id_refl.
    apply (json_items a l x Hj). eapply first_occurrences_from_in. exact Hx.
Qed.

Lemma deduplication_repeatable_witness :
  exists u,
    uniqueArticles (data (loaded (serving 1 scenario))) = Ok u
    /\ uniqueArticles (data (loaded (serving 2 scenario))) = Ok u
    /\ render (loaded (serving 1 scenario)) = render (loaded (serving 2 scenario))
    /\ forall a', uniqueArticles (VArr a' u) = Ok u.
Proof.
  apply (deduplication_repeatable (serving 1 scenario) (serving 2 scenario)
           scenario 2 scenario_items).
  - exists {| ok := true; json := Fulfilled scenario |}. repeat split; reflexivity.
  - exists {| ok := true; json := Fulfilled scenario |}. repeat split; reflexivity.
  - reflexivity.
  - reflexivity.
Defined.

Lemma descendants_card_tree (a : value) :
  descendants (card_tree a)
  = card_tree a
    :: descendants (image_slot a)
    ++ [Elem "div" None [("className", AStr "p-6")]
          [title_block (prop "title" a); text_slot a];
        title_block (prop "title" a); Expr (prop "title" a)]
    ++ descendants (text_slot a).
Proof.
  unfold card_tree. cbn [descendants flat_map title_block].
  rewrite !app_nil_r. reflexivity.
Qed.

(** C7 (as amended).  The card of an article whose id converts to a key
    always holds the title; it holds the image block exactly when
    [image_url] is truthy, and the text block exactly when [text] is truthy,
    the text being passed on as it is. *)
Theorem card_contents (article : value) :
  readable article = true ->
  keyable article = true ->
  exists c,
    card article = Ok c
    /\ titles c = [Expr (prop "title" article)]
    /\ (In (image_block (prop "image_url" article) (prop "title" article))
          (descendants c)
        <-> truthy (prop "image_url" article) = true)
    /\ List.length (elements "img" c)
       = (if truthy (prop "image_url" article) then 1 else 0)
    /\ (In (text_block (prop "text" article)) (descendants c)
        <-> truthy (prop "text" article) = true)
    /\ elements "p" c
       = (if truthy (prop "text" article)
          then [Elem "p" None
                  [("className",
                    AStr "text-gray-700 text-sm leading-relaxed whitespace-pre-line")]
                  [Expr (prop "text" article)]]
          else []).
Proof.
  intros Hread Hkey. exists (card_tree article).
  split; [now apply card_keyable |].
  rewrite descendants_card_tree.
  unfold titles, elements. rewrite descendants_card_tree.
  unfold image_slot, text_slot.
  destruct (truthy (prop "image_url" article)) eqn:Ei,
           (truthy (prop "text" article)) eqn:Et;
    cbn; repeat match goal with |- _ /\ _ => split end; try reflexivity;
    (split;
     [ intros H; try reflexivity;
       repeat (destruct H as [H | H]; try discriminate H); try contradiction
     | intros H; try discriminate H; auto 12 ]).
Qed.

Lemma card_contents_witness :
  exists c,
    card article_B = Ok c
    /\ titles c = [Expr (prop "title" article_B)]
    /\ (In (image_block (prop "image_url" article_B) (prop "title" article_B))
          (descendants c)
        <-> truthy (prop "image_url" article_B) = true)
    /\ List.length (elements "img" c)
       = (if truthy (prop "image_url" article_B) then 1 else 0)
    /\ (In (text_block (prop "text" article_B)) (descendants c)
        <-> truthy (prop "text" article_B) = true)
    /\ elements "p" c
       = (if truthy (prop "text" article_B)
          then [Elem "p" None
                  [("className",
                    AStr "text-gray-700 text-sm leading-relaxed whitespace-pre-line")]
                  [Expr (prop "text" article_B)]]
          else []).
Proof. apply (card_contents article_B); reflexivity. Defined.

(** C7, as stated, fails on an article whose [image_url] is the empty string
    and whose [text] is [null]: both fields are present, and the card holds
    neither an image block nor a text block.  It also fails on an article
    whose id is [{"toString":1}]: no card is made of it, so none holds its
    title. *)
Lemma blank_fields_not_rendered :
  card unkeyable_article = Throw TypeErrorConvert
  /\ has_field "image_url" blank_article = true
  /\ has_field "text" blank_article = true
  /\ exists c,
       card blank_article = Ok c
       /\ elements "img" c = []
       /\ elements "p" c = []
       /\ ~ In (image_block (prop "image_url" blank_article)
                  (prop "title" blank_article)) (descendants c)
       /\ ~ In (text_block (prop "text" blank_article)) (descendants c).
Proof.
  split; [reflexivity |]. split; [reflexivity |]. split; [reflexivity |].
  eexists. split; [reflexivity |]. split; [reflexivity |]. split; [reflexivity |].
  split; cbn; intros H;
    repeat (destruct H as [H | H]; try discriminate H); contradiction.
Qed.

(** C8.  On the payload
    [{"daily_news":[{"id":1,"title":"A"},{"id":1,"title":"A-dup"},
      {"id":2,"title":"B","text":"Body\nLine2","image_url":"http://x/y.png"}]}]
    the component renders exactly two cards, titled "A" then "B"; the second
    holds an image block and a text block whose text has two lines. *)
Theorem scenario_renders_two_cards (now : Z) :
  exists tree c1 c2,
    render (loaded (serving now scenario)) = Ok tree
    /\ cards_of tree = [c1; c2]
    /\ titles c1 = [Expr (VStr "A")]
    /\ titles c2 = [Expr (VStr "B")]
    /\ elements "img" c1 = []
    /\ In (image_block (VStr "http://x/y.png") (VStr "B")) (descendants c2)
    /\ List.length (elements "img" c2) = 1
    /\ flat_map children_of (elements "p" c2) = [Expr (VStr body_text)]
    /\ lines body_text = ["Body"; "Line2"].
Proof.
  assert (Hd : Delivers (serving now scenario) scenario)
    by (apply delivers_serving; reflexivity).
  rewrite (loaded_delivers _ scenario (VArr 2 scenario_items) Hd eq_refl).
  exists (ready_view [card_tree article_A; card_tree article_B]),
         (card_tree article_A), (card_tree article_B).
  repeat split; try reflexivity.
  cbn. auto.
Qed.

(** C9.  When a successful response carries a [daily_news] field whose value
    is falsy ([null], [false], a zero or the empty string), the load stores
    the empty sequence and the component renders the empty state with
    "No hay noticias disponibles.", not the error state. *)
Theorem falsy_daily_news_renders_empty (w : world) (body v : value) :
  Delivers w body ->
  has_field "daily_news" body = true ->
  get_prop body "daily_news" = Ok v ->
  truthy v = false ->
  (v = VNull \/ v = VBool false \/ (exists s, v = VNum (S754_zero s)) \/ v = VStr "")
  /\ data (loaded w) = VArr fresh_array []
  /\ error (loaded w) = VNull
  /\ render (loaded w)
     = Ok (Elem "section" None [("className", AStr "py-12 text-center")]
             [Elem "p" None [] [Text "No hay noticias disponibles."]]).
Proof.
  intros Hd Hhas Hg Ht.
  rewrite (loaded_delivers w body v Hd Hg).
  destruct (render_falsy v Ht) as [Edata Erender].
  split; [| split; [exact Edata | split; [reflexivity | exact Erender]]].
  destruct (daily_news_json body v (delivers_json w body Hd) Hg) as [-> | Hj].
  - destruct body; simpl in Hhas, Hg; try discriminate.
    pose proof (delivers_json w _ Hd) as Hb. simpl in Hb.
    destruct (assoc "daily_news" fields) eqn:A; [| discriminate].
    injection Hg as ->. apply (assoc_json _ _ _ Hb) in A. discriminate.
  - now apply falsy_json.
Qed.

Lemma falsy_daily_news_renders_empty_witness :
  render (loaded (serving 0 (VObj 1 [("daily_news", VNum (S754_zero false))])))
  = Ok empty_view.
Proof.
  apply (falsy_daily_news_renders_empty
           (serving 0 (VObj 1 [("daily_news", VNum (S754_zero false))]))
           (VObj 1 [("daily_news", VNum (S754_zero false))])
           (VNum (S754_zero false))).
  - exists {| ok := true;
              json := Fulfilled (VObj 1 [("daily_news", VNum (S754_zero false))]) |}.
    repeat split; reflexivity.
  - reflexivity.
  - reflexivity.
  - reflexivity.
Defined.

Lemma first_occurrences_from_app (l1 l2 pre : list value) :
  first_occurrences_from pre (l1 ++ l2)
  = (first_occurrences_from pre l1 ++ first_occurrences_from (pre ++ l1) l2)%list.
Proof.
  revert pre. induction l1 as [| x rest IH]; intros pre.
  - simpl. now rewrite app_nil_r.
  - simpl. rewrite IH, <- app_assoc. simpl.
    destruct (existsb (fun y => same_id y x) pre); reflexivity.
Qed.

Lemma other_type_other_id (pre : list value) (x : value) :
  (forall y, In y pre -> type_of (id_of y) <> type_of (id_of x)) ->
  existsb (fun y => same_id y x) pre = false.
Proof.
  intros H. destruct (existsb (fun y => same_id y x) pre) eqn:E; [| reflexivity].
  apply existsb_exists in E as (y & Hy & Hs).
  apply strict_equals_types in Hs. now apply H in Hy.
Qed.

(** C10.  Ids are compared by [===], without conversion: the number 1 and
    the string "1" are different ids, an article is kept whenever the ids of
    all the articles before it are of another type than its own, and of the
    articles without an [id] field only the first is kept. *)
Theorem ids_compared_strictly (a : ident) (l : list value) :
  json_value (VArr a l) = true ->
  forallb readable l = true ->
  strict_equals (VNum (num_of_nat 1)) (VStr "1") = false
  /\ exists u,
       uniqueArticles (VArr a l) = Ok u
       /\ (forall pre x post,
             l = (pre ++ x :: post)%list ->
             (forall y, In y pre -> type_of (id_of y) <> type_of (id_of x)) ->
             In x u)
       /\ List.filter lacks_id u = firstn 1 (List.filter lacks_id l).
Proof.
  intros Hj Hread. split; [reflexivity |].
  exists (first_occurrences l).
  split; [now apply uniqueArticles_json |]. split.
  - intros pre x post -> Htypes. unfold first_occurrences.
    rewrite first_occurrences_from_app. apply in_or_app. right.
    cbn [first_occurrences_from app].
    rewrite (other_type_other_id pre x Htypes). now left.
  - assert (Hext : forall m, incl m l ->
                   List.filter lacks_id m = List.filter id_undefined m).
    { intros m Hm. apply filter_ext_in. intros x Hx. apply Hm in Hx.
      apply lacks_id_undefined.
      - eapply json_items; eauto.
      - exact (proj1 (forallb_forall _ _) Hread x Hx). }
    rewrite (Hext l (incl_refl l)), Hext.
    + unfold first_occurrences. now rewrite first_occurrences_from_undefined.
    + intros x Hx. eapply first_occurrences_from_in. exact Hx.
Qed.

Lemma ids_compared_strictly_witness :
  uniqueArticles (VArr 2 mixed_items)
  = Ok [VObj 3 [("id", one)]; VObj 4 [("id", VStr "1")]; VObj 5 [("title", VStr "x")]]
  /\ exists u,
       uniqueArticles (VArr 2 mixed_items) = Ok u
       /\ (forall pre x post,
             mixed_items = (pre ++ x :: post)%list ->
             (forall y, In y pre -> type_of (id_of y) <> type_of (id_of x)) ->
             In x u)
       /\ List.filter lacks_id u = firstn 1 (List.filter lacks_id mixed_items).
Proof.
  split; [reflexivity |].
  apply (ids_compared_strictly 2 mixed_items); reflexivity.
Defined.

(* ================================================================== *)
(** ** Further behaviour of the component *)
(* ================================================================== *)

(** The states a mount can end in. *)
Lemma loaded_cases (w : world) :
  loaded w = initial_state \/ loaded w = failed_state
  \/ exists daily_news, loaded w = ready_state daily_news.
Proof.
  unfold loaded.
  destruct (mount_cases w) as [E | [E | [d E]]]; rewrite E; cbn.
  - now left.
  - right. now left.
  - right. right. now exists d.
Qed.

Lemma ready_state_data (d : value) :
  data (ready_state d) = d /\ truthy d = true
  \/ data (ready_state d) = VArr fresh_array [] /\ truthy d = false.
Proof.
  unfold ready_state, js_or. cbn [data].
  destruct (truthy d); [left | right]; split; reflexivity.
Qed.

(** X1.  Whatever the host answers, the component body throws on the state
    a mount ends in in exactly two cases, both with an array as the stored
    data: the array holds a [null] or [undefined] element, and the TypeError
    of reading [id] is thrown; or all its elements can be read and the id of
    an article kept by the deduplication cannot be converted to a key, and
    the TypeError of that conversion is thrown. *)
Theorem render_throws_exactly_on_unusable_id (w : world) (e : exn) :
  render (loaded w) = Throw e
  <-> exists a l,
        data (loaded w) = VArr a l
        /\ ((forallb readable l = false /\ e = TypeErrorRead "id")
            \/ (exists u, uniqueArticles (VArr a l) = Ok u
                          /\ forallb keyable u = false
                          /\ e = TypeErrorConvert)).
Proof.
  split.
  - intros Hr.
    destruct (loaded_cases w) as [E | [E | [d E]]]; rewrite E in *;
      try discriminate Hr.
    destruct (ready_state_data d) as [[Ed Ht] | [Ed Ht]].
    + destruct (isArray d) eqn:Ha.
      * destruct d as [| | | | | a l |]; try discriminate Ha.
        exists a, l. split; [exact Ed |].
        destruct (forallb readable l) eqn:Hread.
        -- right. destruct (render_readable_array a l Hread) as (u & Eu & Et).
           rewrite Et in Hr. destruct l as [| x rest]; [discriminate Hr |].
           destruct (forallb keyable u) eqn:K; [discriminate Hr |].
           injection Hr as <-. exists u. auto.
        -- left. rewrite (render_unreadable a l Hread) in Hr.
           injection Hr as <-. auto.
      * destruct (render_not_array d Ht Ha) as [Et | Et]; congruence.
    + destruct (render_falsy d Ht) as [_ Et]. congruence.
  - intros (a & l & Ed & Hcase).
    destruct (loaded_cases w) as [E | [E | [d E]]]; rewrite E in *;
      try discriminate Ed.
    assert (Hd : ready_state d = ready_state (VArr a l) /\ l <> [] \/ l = []).
    { destruct (ready_state_data d) as [[Ed' Ht] | [Ed' Ht]]; rewrite Ed' in Ed.
      - subst d. destruct l; [now right | left; split; [reflexivity | discriminate]].
      - injection Ed as <- <-. now right. }
    destruct Hcase as [[Hread ->] | (u & Eu & K & ->)].
    + destruct Hd as [[-> _] | ->]; [| discriminate Hread].
      now apply render_unreadable.
    + destruct Hd as [[-> Hne] | ->].
      * destruct (forallb readable l) eqn:Hread.
        -- destruct (render_readable_array a l Hread) as (u' & Eu' & Et).
           rewrite Eu in Eu'. injection Eu' as <-. rewrite Et, K.
           destruct l; [now contradiction Hne | reflexivity].
        -- rewrite (uniqueArticles_unreadable a l Hread) in Eu. discriminate Eu.
      * cbn in Eu. injection Eu as <-. discriminate K.
Qed.

Lemma render_throws_exactly_on_unusable_id_witness :
  render (loaded (serving 0 null_item_feed)) = Throw (TypeErrorRead "id")
  /\ render (loaded (serving 0 unkeyable_feed)) = Throw TypeErrorConvert.
Proof.
  split.
  - apply (render_throws_exactly_on_unusable_id (serving 0 null_item_feed)).
    exists 2, [VNull]. split; [reflexivity |]. left. split; reflexivity.
  - apply (render_throws_exactly_on_unusable_id (serving 0 unkeyable_feed)).
    exists 2, [unkeyable_article]. split; [reflexivity |]. right.
    exists [unkeyable_article]. repeat split; reflexivity.
Defined.

(** X2.  Whatever the host does, and also when it never answers, a mount
    sends exactly one request, to the feed URL stamped with the clock. *)
Theorem one_request_per_mount (w : world) :
  requests (snd (mount w)) = [feed_url (date_now w)].
Proof.
  destruct (mount_cases w) as [E | [E | [d E]]]; rewrite E; reflexivity.
Qed.

(** X3.  The promise of [fetchData] is never rejected: every exception
    raised while loading is absorbed by the [catch]. *)
Theorem fetchData_never_rejects (w : world) (e : exn) :
  fst (mount w) <> Rejected e.
Proof.
  destruct (mount_cases w) as [E | [E | [d E]]]; rewrite E; discriminate.
Qed.

Lemma fetchData_never_rejects_witness :
  fst (mount (serving 0 VNull)) <> Rejected (TypeErrorRead "daily_news").
Proof. apply (fetchData_never_rejects (serving 0 VNull)). Defined.

(** X4.  In the state a mount ends in, error and data are never both set:
    the error is [null] or the fixed message, the data is [null] or a truthy
    value, and one of the two is [null]. *)
Theorem never_both_error_and_data (w : world) :
  (error (loaded w) = VNull \/ data (loaded w) = VNull)
  /\ (error (loaded w) = VNull
      \/ error (loaded w) = VStr "No se pudieron cargar las noticias de ISOTools.")
  /\ (data (loaded w) = VNull \/ truthy (data (loaded w)) = true).
Proof.
  destruct (loaded_cases w) as [E | [E | [d E]]]; rewrite E.
  - repeat split; now left.
  - repeat split; auto.
  - repeat split; try (now left). right.
    destruct (ready_state_data d) as [[-> Ht] | [-> Ht]]; [exact Ht | reflexivity].
Qed.

(** X5.  The loading view stays exactly when the host never answers: the
    load is then suspended for good, the state is the initial one, and
    neither the [catch] nor the [finally] block has run. *)
Theorem loading_persists_iff_stalled (w : world) :
  (Stalls w <-> fst (mount w) = Pending)
  /\ (Stalls w <-> render (loaded w) = Ok loading_view)
  /\ (Stalls w <-> loaded w = initial_state).
Proof.
  assert (Hs : Stalls w -> mount w
               = (Pending, {| view := initial_state; requests := [request w] |})).
  { intros [H | (r & H & Hok & Hjson)].
    - now apply mount_stalled_request.
    - eapply mount_stalled_body; eauto. }
  assert (Hc : ~ Stalls w -> loading (loaded w) = false).
  { intros Hn. apply mount_completes_iff in Hn. unfold loaded.
    destruct (mount_cases w) as [E | [E | [d E]]]; rewrite E in *;
      [now contradiction Hn | reflexivity | reflexivity]. }
  assert (Hdec : Stalls w \/ ~ Stalls w).
  { destruct (fetch w (request w)) as [r | e |] eqn:H.
    - destruct (ok r) eqn:Hok.
      + destruct (json r) as [b | e |] eqn:Hjson.
        * right. intros [H' | (r' & H' & _ & Hj')]; [congruence |].
          rewrite H in H'. injection H' as <-. congruence.
        * right. intros [H' | (r' & H' & _ & Hj')]; [congruence |].
          rewrite H in H'. injection H' as <-. congruence.
        * left. right. eauto.
      + right. intros [H' | (r' & H' & Hok' & _)]; [congruence |].
        rewrite H in H'. injection H' as <-. congruence.
    - right. intros [H' | (r' & H' & _)]; congruence.
    - left. now left. }
  repeat split.
  - intros S. now rewrite (Hs S).
  - intros Hp. destruct Hdec as [S | N]; [exact S |].
    apply mount_completes_iff in N. contradiction.
  - intros S. unfold loaded. now rewrite (Hs S).
  - intros Hr. destruct Hdec as [S | N]; [exact S |].
    apply render_loading_view in Hr. rewrite (Hc N) in Hr. discriminate.
  - intros S. unfold loaded. now rewrite (Hs S).
  - intros Hi. destruct Hdec as [S | N]; [exact S |].
    pose proof (Hc N) as Hl. rewrite Hi in Hl. discriminate.
Qed.

Lemma loading_persists_iff_stalled_witness :
  render (loaded (serving 0 (VNull))) <> Ok loading_view
  /\ render (loaded {| date_now := 0; fetch := fun _ => Pending |}) = Ok loading_view.
Proof.
  split.
  - discriminate.
  - apply (loading_persists_iff_stalled {| date_now := 0; fetch := fun _ => Pending |}).
    left. reflexivity.
Defined.

Lemma append_cancel_prefix (p a b : string) : (p ++ a = p ++ b)%string -> a = b.
Proof.
  induction p as [| c p IH]; simpl; [auto |].
  intros H. injection H as H. now apply IH.
Qed.

Lemma to_int_printable (z : Z) :
  Z.to_int z <> Decimal.Pos Decimal.Nil /\ Z.to_int z <> Decimal.Neg Decimal.Nil.
Proof.
  destruct z as [| p | p]; simpl; split; try discriminate;
    intros H; injection H as H; now apply DecimalPos.Unsigned.to_uint_nonnil in H.
Qed.

Lemma feed_url_prefix (timestamp : Z) :
  feed_url timestamp
  = (feed_prefix ++ NilZero.string_of_int (Z.to_int timestamp))%string.
Proof. reflexivity. Qed.

(** X6.  The request URL is the fixed feed address followed by the clock
    value in decimal, from which the clock value can be read back; so two
    mounts at different clock values request different URLs. *)
Theorem feed_url_distinct_timestamps (t1 t2 : Z) :
  t1 <> t2 ->
  feed_url t1 <> feed_url t2
  /\ exists digits,
       feed_url t1 = (feed_prefix ++ digits)%string
       /\ option_map Z.of_int (NilZero.int_of_string digits) = Some t1.
Proof.
  intros Hne.
  assert (Hparse : forall t,
            NilZero.int_of_string (NilZero.string_of_int (Z.to_int t))
            = Some (Z.to_int t)).
  { intros t. destruct (to_int_printable t). now apply NilZero.isi. }
  split.
  - intros H. rewrite !feed_url_prefix in H. apply append_cancel_prefix in H.
    apply Hne, DecimalZ.to_int_inj.
    pose proof (Hparse t1) as H1. rewrite H, Hparse in H1. now injection H1.
  - exists (NilZero.string_of_int (Z.to_int t1)). split; [reflexivity |].
    rewrite Hparse. simpl. now rewrite DecimalZ.of_to.
Qed.

Lemma feed_url_distinct_timestamps_witness :
  feed_url 1700000000000 <> feed_url 1700000000001.
Proof.
  apply (feed_url_distinct_timestamps 1700000000000 1700000000001). lia.
Defined.

Lemma delivered_array (w : world) (body : value) (a : ident) (l : list value) :
  Delivers w body -> get_prop body "daily_news" = Ok (VArr a l) ->
  json_value (VArr a l) = true /\ loaded w = ready_state (VArr a l).
Proof.
  intros Hd Hg. split.
  - destruct (daily_news_json body _ (delivers_json w body Hd) Hg) as [E | E];
      [discriminate | exact E].
  - now apply loaded_delivers with (body := body).
Qed.

Lemma first_occurrences_from_fixed_iff (l pre : list value) :
  first_occurrences_from pre l = l <-> ids_distinct_from pre l = true.
Proof.
  split; [| apply first_occurrences_from_fixed].
  intros H. rewrite <- H. apply first_occurrences_from_distinct, incl_refl.
Qed.

(** X7.  Deduplication returns its input unchanged exactly for a feed in
    which no two articles share an id; such a feed, when every id converts
    to a key and React can show every article's fields, is shown whole and
    in order, one card per article. *)
Theorem duplicate_free_feed_rendered_whole
  (w : world) (body : value) (a : ident) (l : list value) :
  Delivers w body ->
  get_prop body "daily_news" = Ok (VArr a l) ->
  forallb readable l = true ->
  (uniqueArticles (data (loaded w)) = Ok l <-> ids_distinct l = true)
  /\ (ids_distinct l = true ->
      forallb showable l = true ->
      exists tree, render (loaded w) = Ok tree
                   /\ displayable tree = true
                   /\ map_result card l = Ok (cards_of tree)).
Proof.
  intros Hd Hg Hread.
  destruct (delivered_array w body a l Hd Hg) as [Hj ->].
  assert (Hu : uniqueArticles (data (ready_state (VArr a l)))
               = Ok (first_occurrences l)).
  { unfold ready_state. cbn [data]. rewrite js_or_array.
    now apply uniqueArticles_json. }
  split.
  - rewrite Hu. unfold ids_distinct.
    rewrite <- first_occurrences_from_fixed_iff. unfold first_occurrences.
    split; [intros H; now injection H | intros ->; reflexivity].
  - intros Hdist Hshow.
    assert (Hfix : first_occurrences l = l)
      by (apply first_occurrences_from_fixed; exact Hdist).
    destruct (showable_all l Hshow) as [Hkey Hfields].
    exists (array_view l).
    split; [apply render_array; auto; now rewrite Hfix |].
    split; [apply displayable_array_view; now rewrite Hfix |].
    rewrite cards_of_array_view, Hfix.
    now apply map_card_keyable.
Qed.

Lemma duplicate_free_feed_rendered_whole_witness :
  uniqueArticles
    (data (loaded (serving 0 (VObj 1 [("daily_news", VArr 2 [article_A; article_B])]))))
  = Ok [article_A; article_B].
Proof.
  apply (duplicate_free_feed_rendered_whole
           (serving 0 (VObj 1 [("daily_news", VArr 2 [article_A; article_B])]))
           (VObj 1 [("daily_news", VArr 2 [article_A; article_B])])
           2 [article_A; article_B]).
  - exists {| ok := true;
              json := Fulfilled
                        (VObj 1 [("daily_news", VArr 2 [article_A; article_B])]) |}.
    repeat split; reflexivity.
  - reflexivity.
  - reflexivity.
  - reflexivity.
Defined.

Lemma forallb_readable_app (l1 l2 : list value) :
  forallb readable (l1 ++ l2)%list = true ->
  forallb readable l1 = true /\ forallb readable l2 = true.
Proof. rewrite forallb_app. apply andb_true_iff. Qed.

Lemma json_items_app (a a1 : ident) (l1 l2 : list value) :
  json_value (VArr a (l1 ++ l2)%list) = true -> json_value (VArr a1 l1) = true.
Proof.
  simpl. rewrite forallb_app. intros H. now apply andb_true_iff in H as [H _].
Qed.

(** X8.  Articles added at the end of a feed never change the articles
    already kept: the deduplicated longer feed begins with the deduplicated
    shorter one, and what follows comes from the added articles. *)
Theorem appended_news_keep_cards (a1 a2 : ident) (l1 l2 : list value) :
  json_value (VArr a2 (l1 ++ l2)%list) = true ->
  forallb readable (l1 ++ l2)%list = true ->
  exists u1 more,
    uniqueArticles (VArr a1 l1) = Ok u1
    /\ uniqueArticles (VArr a2 (l1 ++ l2)%list) = Ok (u1 ++ more)%list
    /\ incl more l2.
Proof.
  intros Hj Hread.
  destruct (forallb_readable_app l1 l2 Hread) as [Hr1 _].
  exists (first_occurrences l1), (first_occurrences_from l1 l2).
  split; [| split].
  - apply uniqueArticles_json; [eapply json_items_app; eauto | exact Hr1].
  - rewrite (uniqueArticles_json a2 _ Hj Hread).
    unfold first_occurrences. now rewrite first_occurrences_from_app.
  - intros x Hx. eapply first_occurrences_from_in. exact Hx.
Qed.

Lemma appended_news_keep_cards_witness :
  exists u1 more,
    uniqueArticles (VArr 2 [article_A]) = Ok u1
    /\ uniqueArticles (VArr 2 ([article_A] ++ [article_A_dup; article_B])%list)
       = Ok (u1 ++ more)%list
    /\ incl more [article_A_dup; article_B].
Proof.
  apply (appended_news_keep_cards 2 2 [article_A] [article_A_dup; article_B]);
    reflexivity.
Defined.

Lemma subsequence_length (sub l : list value) :
  Subsequence sub l -> List.length sub <= List.length l.
Proof. induction 1; simpl; lia. Qed.

(** X9.  A non-empty feed whose kept articles have ids that convert to keys
    and fields React can show always shows its first article first: the
    first card is the card of the first article, the cards are at least one
    and at most as many as the articles, and the empty-state message is not
    shown. *)
Theorem nonempty_feed_shows_first_article
  (w : world) (body : value) (a : ident) (x : value) (rest : list value) :
  Delivers w body ->
  get_prop body "daily_news" = Ok (VArr a (x :: rest)) ->
  forallb readable (x :: rest) = true ->
  forallb showable (first_occurrences (x :: rest)) = true ->
  exists tree first others,
    render (loaded w) = Ok tree
    /\ displayable tree = true
    /\ card x = Ok first
    /\ cards_of tree = first :: others
    /\ List.length (cards_of tree) <= List.length (x :: rest)
    /\ tree <> empty_view.
Proof.
  intros Hd Hg Hread Hshow.
  destruct (delivered_array w body a _ Hd Hg) as [Hj ->].
  pose proof Hread as Hx. simpl in Hx. apply andb_true_iff in Hx as [Hx _].
  destruct (showable_all _ Hshow) as [Hkey Hfields].
  assert (Hkx : keyable x = true).
  { unfold first_occurrences in Hkey. cbn [first_occurrences_from existsb] in Hkey.
    cbn [forallb] in Hkey. now apply andb_true_iff in Hkey as [Hkx _]. }
  exists (array_view (x :: rest)), (card_tree x),
         (map card_tree (first_occurrences_from [x] rest)).
  split; [now apply render_array |].
  split; [now apply displayable_array_view |].
  split; [now apply card_keyable |].
  rewrite cards_of_array_view. split; [reflexivity |]. split.
  - rewrite length_map. apply subsequence_length.
    apply first_occurrences_from_subsequence.
  - discriminate.
Qed.

Lemma nonempty_feed_shows_first_article_witness :
  exists tree first others,
    render (loaded (serving 0 scenario)) = Ok tree
    /\ displayable tree = true
    /\ card article_A = Ok first
    /\ cards_of tree = first :: others
    /\ List.length (cards_of tree) <= List.length scenario_items
    /\ tree <> empty_view.
Proof.
  apply (nonempty_feed_shows_first_article (serving 0 scenario) scenario 2
           article_A [article_A_dup; article_B]).
  - exists {| ok := true; json := Fulfilled scenario |}. repeat split; reflexivity.
  - reflexivity.
  - reflexivity.
  - reflexivity.
Defined.

Lemma length_of_primitive (v : value) :
  truthy v = true -> isArray v = false ->
  (forall a fields, v <> VObj a fields) ->
  strict_equals (prop "length" v) (VNum zero) = false.
Proof.
  destruct v as [| | b | x | s | a l | a fields]; simpl; try discriminate; auto.
  - intros Hs _ _. unfold prop. simpl.
    rewrite length_is_zero. destruct s; [discriminate | reflexivity].
  - intros _ _ H. now contradiction (H a fields).
Qed.

(** X10.  A truthy [daily_news] that is not an array renders no card; the
    empty-state message is shown only when its [length] property is the
    number zero (an object with a field [length] equal to 0), and otherwise,
    for every string, number, [true] and other object, the heading is shown
    over an empty grid. *)
Theorem non_array_view_by_length (w : world) (body v : value) :
  Delivers w body ->
  get_prop body "daily_news" = Ok v ->
  truthy v = true ->
  isArray v = false ->
  render (loaded w)
  = Ok (if strict_equals (prop "length" v) (VNum zero)
        then empty_view else ready_view [])
  /\ ((forall a fields, v <> VObj a fields) ->
      render (loaded w) = Ok (ready_view [])).
Proof.
  intros Hd Hg Ht Ha.
  rewrite (loaded_delivers w body v Hd Hg).
  assert (Hr : render (ready_state v)
               = Ok (if strict_equals (prop "length" v) (VNum zero)
                     then empty_view else ready_view [])).
  { unfold render, ready_state, js_or. rewrite Ht.
    cbn [loading error data truthy]. rewrite (no_news_truthy v Ht). cbn [rbind].
    destruct (strict_equals (prop "length" v) (VNum zero)); [reflexivity |].
    now rewrite (uniqueArticles_not_array v Ha). }
  split; [exact Hr |].
  intros Hobj. rewrite Hr. now rewrite (length_of_primitive v Ht Ha Hobj).
Qed.

Lemma non_array_view_by_length_witness :
  render (loaded (serving 0 (VObj 1 [("daily_news", VObj 2 [("length", VNum zero)])])))
  = Ok empty_view
  /\ render (loaded (serving 0 (VObj 1 [("daily_news", VStr "soon")])))
     = Ok (ready_view []).
Proof.
  split.
  - apply (non_array_view_by_length
             (serving 0 (VObj 1 [("daily_news", VObj 2 [("length", VNum zero)])]))
             (VObj 1 [("daily_news", VObj 2 [("length", VNum zero)])])
             (VObj 2 [("length", VNum zero)])).
    + exists {| ok := true;
                json := Fulfilled
                          (VObj 1 [("daily_news", VObj 2 [("length", VNum zero)])]) |}.
      repeat split; reflexivity.
    + reflexivity.
    + reflexivity.
    + reflexivity.
  - apply (non_array_view_by_length
             (serving 0 (VObj 1 [("daily_news", VStr "soon")]))
             (VObj 1 [("daily_news", VStr "soon")]) (VStr "soon")).
    + exists {| ok := true;
                json := Fulfilled (VObj 1 [("daily_news", VStr "soon")]) |}.
      repeat split; reflexivity.
    + reflexivity.
    + reflexivity.
    + reflexivity.
    + discriminate.
Defined.

(** X11.  A delivered JSON body ends the load in the error state exactly
    when the body is [null]; every other body ends it in the ready state
    built from what [daily_news] reads as. *)
Theorem delivered_body_fails_iff_null (w : world) (body : value) :
  Delivers w body ->
  (loaded w = failed_state <-> body = VNull)
  /\ (body <> VNull -> loaded w = ready_state (prop "daily_news" body)).
Proof.
  intros Hd.
  pose proof (mount_delivers w body Hd) as Hm.
  destruct (readable body) eqn:Hread.
  - rewrite (get_prop_readable body "daily_news" Hread) in Hm.
    rewrite (loaded_completed w _ Hm). split; [| reflexivity].
    split; [discriminate |]. intros ->. discriminate Hread.
  - assert (body = VNull) as ->.
    { pose proof (delivers_json w body Hd) as Hj.
      destruct body; try discriminate; reflexivity. }
    simpl in Hm. rewrite (loaded_completed w _ Hm).
    split; [tauto | congruence].
Qed.

Lemma delivered_body_fails_iff_null_witness :
  loaded (serving 0 (VBool true)) = ready_state VUndefined.
Proof.
  apply (delivered_body_fails_iff_null (serving 0 (VBool true)) (VBool true)).
  - exists {| ok := true; json := Fulfilled (VBool true) |}.
    repeat split; reflexivity.
  - discriminate.
Defined.
